(** * EduBot backend: the school scoring heuristic of [backend/server.js]

    A shallow embedding of [calculateScore] and of the recommendation
    pipeline of [POST /api/recommend], together with the properties the
    specification states about them.

    The two arguments of [calculateScore] are JavaScript values that were
    read from JSON (the request body and the database snapshot), so the
    embedding works on a type of JSON-shaped values and follows the
    language's coercions where the source relies on them: property reads,
    truthiness, [typeof], [String(...)], [===], [<=] and method calls on a
    value that may or may not be a string.  A [TypeError] raised by one of
    them is a result of the embedding, not a missing case. *)

From Stdlib Require Import ZArith QArith List String Ascii Bool Lia.
From Stdlib Require Import Permutation Sorted DecimalString.
From Stdlib Require DecimalPos DecimalZ.
Import ListNotations.

Local Open Scope Z_scope.
Local Open Scope string_scope.
Local Set Warnings "-register-all".

(** ** Completions: a result or a thrown [TypeError]

    Every exception the scoring code can raise on JSON data is a
    [TypeError] (reading a property of [null], calling something that is no
    function, converting an object that has no usable [toString]). *)

Inductive completion (A : Type) : Type :=
| Normal (a : A)
| TypeError.

Arguments Normal {A} a.
Arguments TypeError {A}.

Definition bind {A B : Type} (c : completion A) (k : A -> completion B)
  : completion B :=
  match c with
  | Normal a => k a
  | TypeError => TypeError
  end.

Notation "x <- c ;; k" := (bind c (fun x => k))
  (at level 61, c at next level, right associativity).

(** [a && b] and [a || b] on operands that may throw: the right operand is
    evaluated only when the left one does not decide the result. *)
Definition andM (a b : completion bool) : completion bool :=
  x <- a ;; if x then b else Normal false.

Definition orM (a b : completion bool) : completion bool :=
  x <- a ;; if x then Normal true else b.

Infix "&&&" := andM (at level 40, left associativity).
Infix "|||" := orM (at level 50, left associativity).

Fixpoint mapM {A B : Type} (f : A -> completion B) (l : list A)
  : completion (list B) :=
  match l with
  | [] => Normal []
  | x :: t => y <- f x ;; ys <- mapM f t ;; Normal (y :: ys)
  end.

(** ** Values

    A JavaScript number is an IEEE double.  Every finite double is a
    rational, and the only operations the source applies to the numbers it
    is given are comparisons ([===], [<=]), truthiness and [String(...)];
    comparisons of doubles agree with those of the rationals they denote,
    so a finite number is kept as a rational ([-0] and [0] coincide, as
    they do under every operation used here). *)

Inductive number : Type :=
| NaN
| Infinity (negative : bool)
| Finite (q : Q).

Definition num (z : Z) : number := Finite (inject_Z z).

(** A string is the sequence of its code units; the model has the code
    units below 256 (one [ascii] each). *)

Inductive value : Type :=
| Undefined
| Null
| Bool (b : bool)
| Number (n : number)
| Str (s : string)
| Array (elems : list value)
| Object (props : list (string * value)).

(** The conversions between numbers and their text are the engine's
    ([Number::toString], which prints the shortest digits that read back
    to the same double, and [StringToNumber], which rounds a numeric
    literal to a double).  The scoring code is embedded over any such pair
    of functions. *)
Class Runtime : Type := {
  NumberToString : number -> string;
  StringToNumber : string -> number
}.

(** *** Operations on numbers *)

(** [a === b] on numbers: [NaN] equals nothing. *)
Definition number_eqb (a b : number) : bool :=
  match a, b with
  | Finite p, Finite q => Qeq_bool p q
  | Infinity s, Infinity t => Bool.eqb s t
  | _, _ => false
  end.

(** [a <= b] on numbers: false as soon as one side is [NaN]. *)
Definition number_leb (a b : number) : bool :=
  match a, b with
  | NaN, _ | _, NaN => false
  | Finite p, Finite q => Qle_bool p q
  | Infinity true, _ => true
  | _, Infinity false => true
  | Infinity false, _ => false
  | _, Infinity true => false
  end.

(** *** Operations on strings *)

(** [String.prototype.toLowerCase] on code units below 256: the capital
    letters are [A]-[Z], [U+00C0]-[U+00D6] and [U+00D8]-[U+00DE], each 32
    below its small letter. *)
Definition lower_unit (c : ascii) : ascii :=
  let n := N_of_ascii c in
  if ((65 <=? n) && (n <=? 90)
      || (192 <=? n) && (n <=? 222) && negb (n =? 215))%N
  then ascii_of_N (n + 32)
  else c.

Fixpoint lower (s : string) : string :=
  match s with
  | EmptyString => EmptyString
  | String c t => String (lower_unit c) (lower t)
  end.

(** [s.includes(sub)]: [sub] occurs in [s] as a contiguous run. *)
Fixpoint includes (s sub : string) : bool :=
  String.prefix sub s
  || match s with
     | EmptyString => false
     | String _ t => includes t sub
     end.

(** *** Objects *)

(** The own property [k] of an object whose properties are [props], if it
    has one; reading a property it does not have gives [undefined]. *)
Fixpoint own (k : string) (props : list (string * value)) : option value :=
  match props with
  | [] => None
  | (k', v) :: t => if k' =? k then Some v else own k t
  end.

(** [o.k], for the property names the scoring code reads ([classes],
    [location], [type], [distence], [fee], [midday], [girlSupport],
    [class], [maxDistance], [middayMeal], [girlChild]): none of them is
    defined on a prototype, so the read gives the own property of an
    object, [undefined] on an array or a primitive, and throws on [null]
    and [undefined]. *)
Definition field (k : string) (props : list (string * value)) : value :=
  match own k props with
  | Some v => v
  | None => Undefined
  end.

Definition Get (o : value) (k : string) : completion value :=
  match o with
  | Undefined | Null => TypeError
  | Object props => Normal (field k props)
  | Bool _ | Number _ | Str _ | Array _ => Normal Undefined
  end.

(** *** Coercions *)

Definition typeof (v : value) : string :=
  match v with
  | Undefined => "undefined"
  | Null | Array _ | Object _ => "object"
  | Bool _ => "boolean"
  | Number _ => "number"
  | Str _ => "string"
  end.

Definition isArray (v : value) : bool :=
  match v with
  | Array _ => true
  | _ => false
  end.

(** Truthiness: [undefined], [null], [false], [0], [NaN] and the empty
    string are falsy, everything else is truthy. *)
Definition ToBoolean (v : value) : bool :=
  match v with
  | Undefined | Null => false
  | Bool b => b
  | Number NaN => false
  | Number (Infinity _) => true
  | Number (Finite q) => negb (Qeq_bool q 0)
  | Str s => negb (s =? "")
  | Array _ | Object _ => true
  end.

(** [x === y].  Objects and arrays are equal only to themselves (by
    reference); every use in the source has a primitive literal on the
    right, where the answer for them is [false]. *)
Definition StrictEquals (x y : value) : bool :=
  match x, y with
  | Undefined, Undefined => true
  | Null, Null => true
  | Bool a, Bool b => Bool.eqb a b
  | Number a, Number b => number_eqb a b
  | Str a, Str b => (a =? b)
  | _, _ => false
  end.

Section Coercions.

Context {rt : Runtime}.

(** [String(v)].  An array is joined with commas, [null] and [undefined]
    elements printing as nothing.  An object of JSON data prints as
    ["[object Object]"] through the inherited [toString]; when it has an
    own property named [toString] that property is data, not a function,
    the inherited [valueOf] gives back the object itself, and the
    conversion throws. *)
Fixpoint ToString (v : value) : completion string :=
  match v with
  | Undefined => Normal "undefined"
  | Null => Normal "null"
  | Bool true => Normal "true"
  | Bool false => Normal "false"
  | Number n => Normal (NumberToString n)
  | Str s => Normal s
  | Array elems =>
      (fix join (l : list value) : completion string :=
         match l with
         | [] => Normal ""
         | x :: t =>
             s <- match x with
                  | Undefined | Null => Normal ""
                  | _ => ToString x
                  end ;;
             match t with
             | [] => Normal s
             | _ :: _ => r <- join t ;; Normal (s ++ "," ++ r)
             end
         end) elems
  | Object props =>
      match own "toString" props with
      | Some _ => TypeError
      | None => Normal "[object Object]"
      end
  end.

(** [ToPrimitive]: arrays and objects go through their string form (the
    inherited [valueOf] returns the object itself, under either hint). *)
Definition ToPrimitive (v : value) : completion value :=
  match v with
  | Array _ | Object _ => s <- ToString v ;; Normal (Str s)
  | _ => Normal v
  end.

(** [ToNumber] of a primitive. *)
Definition ToNumber (p : value) : number :=
  match p with
  | Undefined => NaN
  | Null => num 0
  | Bool true => num 1
  | Bool false => num 0
  | Number n => n
  | Str s => StringToNumber s
  | Array _ | Object _ => NaN
  end.

(** [x <= y]: both operands are made primitive; two strings compare by
    code units, anything else compares as numbers. *)
Definition LessEq (x y : value) : completion bool :=
  px <- ToPrimitive x ;;
  py <- ToPrimitive y ;;
  match px, py with
  | Str a, Str b => Normal (String.leb a b)
  | _, _ => Normal (number_leb (ToNumber px) (ToNumber py))
  end.

(** [v.toLowerCase()]: only a string has the method; on any other value
    the property is missing or is data, and the call throws. *)
Definition toLowerCase (v : value) : completion string :=
  match v with
  | Str s => Normal (lower s)
  | _ => TypeError
  end.

End Coercions.

(** ** The scoring function *)

Section Scoring.

Context {rt : Runtime}.

(** The seven criteria, in the order the source tests them. *)
Inductive criterion : Type :=
| ClassMatch
| LocationMatch
| TypeMatch
| DistanceFit
| FeeFit
| MiddayMeal
| GirlChild.

Definition criteria : list criterion :=
  [ClassMatch; LocationMatch; TypeMatch; DistanceFit; FeeFit; MiddayMeal;
   GirlChild].

(** The points each [score += ...] adds. *)
Definition weight (c : criterion) : Z :=
  match c with
  | ClassMatch => 30
  | LocationMatch => 20
  | TypeMatch => 20
  | DistanceFit => 20
  | FeeFit => 20
  | MiddayMeal => 5
  | GirlChild => 5
  end.

(** CLASS: [school.classes], when it is neither [undefined] nor [null],
    is either an array, whose elements are stringified and searched for
    [String(user.class)], or a single value, whose string is compared
    with it. *)
Definition class_match (school user : value) : completion bool :=
  classes <- Get school "classes" ;;
  if negb (StrictEquals classes Undefined) && negb (StrictEquals classes Null)
  then
    if isArray classes then
      match classes with
      | Array elems =>
          strs <- mapM ToString elems ;;
          c <- Get user "class" ;;
          key <- ToString c ;;
          Normal (existsb (fun e => e =? key) strs)
      | _ => Normal false
      end
    else
      a <- ToString classes ;;
      c <- Get user "class" ;;
      b <- ToString c ;;
      Normal (a =? b)
  else Normal false.

(** LOCATION: both sides truthy and the school's lowercased location
    includes the user's. *)
Definition location_match (school user : value) : completion bool :=
  (l <- Get school "location" ;; Normal (ToBoolean l))
  &&& (l <- Get user "location" ;; Normal (ToBoolean l))
  &&& (sl <- Get school "location" ;;
       a <- toLowerCase sl ;;
       ul <- Get user "location" ;;
       b <- toLowerCase ul ;;
       Normal (includes a b)).

(** TYPE: both sides truthy and equal once lowercased. *)
Definition type_match (school user : value) : completion bool :=
  (t <- Get school "type" ;; Normal (ToBoolean t))
  &&& (t <- Get user "type" ;; Normal (ToBoolean t))
  &&& (st <- Get school "type" ;;
       a <- toLowerCase st ;;
       ut <- Get user "type" ;;
       b <- toLowerCase ut ;;
       Normal (a =? b)).

(** DISTANCE: the field is spelled [distence] in the data. *)
Definition distance_fit (school user : value) : completion bool :=
  (d <- Get school "distence" ;; Normal (typeof d =? "number"))
  &&& (d <- Get school "distence" ;;
       m <- Get user "maxDistance" ;;
       LessEq d m).

(** FEE *)
Definition fee_fit (school user : value) : completion bool :=
  (f <- Get school "fee" ;; Normal (typeof f =? "number"))
  &&& ((u <- Get user "fee" ;; Normal (StrictEquals u (Str "free")))
       &&& (f <- Get school "fee" ;; Normal (StrictEquals f (Number (num 0))))
       ||| (u <- Get user "fee" ;; Normal (StrictEquals u (Str "low")))
           &&& (f <- Get school "fee" ;; LessEq f (Number (num 500)))
       ||| (u <- Get user "fee" ;; Normal (StrictEquals u (Str "medium")))
           &&& (f <- Get school "fee" ;; LessEq f (Number (num 1500)))).

(** SCHEMES *)
Definition midday_match (school user : value) : completion bool :=
  (m <- Get user "middayMeal" ;; Normal (ToBoolean m))
  &&& (m <- Get school "midday" ;; Normal (StrictEquals m (Bool true))).

Definition girl_match (school user : value) : completion bool :=
  (g <- Get user "girlChild" ;; Normal (ToBoolean g))
  &&& (g <- Get school "girlSupport" ;; Normal (StrictEquals g (Bool true))).

(** The condition of the [if] that guards a criterion's [score += ...]. *)
Definition condition (c : criterion) (school user : value)
  : completion bool :=
  match c with
  | ClassMatch => class_match school user
  | LocationMatch => location_match school user
  | TypeMatch => type_match school user
  | DistanceFit => distance_fit school user
  | FeeFit => fee_fit school user
  | MiddayMeal => midday_match school user
  | GirlChild => girl_match school user
  end.

(** [if (cond) score += w], with [score] threaded through. *)
Definition award (cond : completion bool) (w : Z) (score : Z)
  : completion Z :=
  b <- cond ;; Normal (if b then score + w else score).

Definition calculateScore (school user : value) : completion Z :=
  let score := 0 in
  score <- award (class_match school user) 30 score ;;
  score <- award (location_match school user) 20 score ;;
  score <- award (type_match school user) 20 score ;;
  score <- award (distance_fit school user) 20 score ;;
  score <- award (fee_fit school user) 20 score ;;
  score <- award (midday_match school user) 5 score ;;
  score <- award (girl_match school user) 5 score ;;
  Normal score.

End Scoring.

(** ** The recommendation pipeline of [POST /api/recommend] *)

(** [Array.prototype.sort(cmp)]: the order is the one of the comparator's
    sign, and elements that compare equal keep their order (the sort is
    stable); an insertion sort computes it. *)
Fixpoint insert {A : Type} (cmp : A -> A -> Z) (x : A) (l : list A)
  : list A :=
  match l with
  | [] => [x]
  | y :: t => if (cmp x y <=? 0)%Z then x :: l else y :: insert cmp x t
  end.

Definition sort {A : Type} (cmp : A -> A -> Z) (l : list A) : list A :=
  fold_right (insert cmp) [] l.

(** The object [{ ...s, score: calculateScore(s, user) }]: the school's
    properties together with its score. *)
Record scored : Type := {
  school : value;
  score : Z
}.

(** What the handler answers. *)
Inductive response : Type :=
| Json (body : list scored)
| Status500 (error : string).

Section Recommend.

Context {rt : Runtime}.

Definition with_score (user s : value) : completion scored :=
  n <- calculateScore s user ;; Normal {| school := s; score := n |}.

Definition recommendations (schools : list value) (user : value)
  : completion (list scored) :=
  mapped <- mapM (with_score user) schools ;;
  Normal (sort (fun a b => score b - score a)
               (filter (fun s => (score s >=? 30)%Z) mapped)).

(** The [try]/[catch] around the pipeline. *)
Definition recommend (schools : list value) (user : value) : response :=
  match recommendations schools user with
  | Normal r => Json r
  | TypeError => Status500 "Recommendation failed"
  end.

End Recommend.

(** ** A reference runtime

    Plain decimal notation, enough to run the scoring code on concrete
    data: an integral number prints as its decimal digits, another finite
    number as its integer part, a point and up to twenty digits of its
    fraction; a numeric string is read when it is made of an optional
    sign, digits and an optional fraction (the empty string reads as 0).
    The rest of the engine's conversions (exponents, [Infinity], the
    other radices, surrounding white space, rounding to the nearest
    double) is not reproduced: the properties below are proved for every
    runtime, and this one only serves to evaluate the code on the
    integers of the examples. *)

Definition decimal (z : Z) : string :=
  NilZero.string_of_int (Z.to_int z).

Fixpoint fraction_digits (fuel : nat) (r d : Z) : string :=
  match fuel with
  | O => ""
  | S fuel' =>
      if (r =? 0)%Z then ""
      else decimal (10 * r / d) ++ fraction_digits fuel' (10 * r mod d) d
  end.

Definition print_number (n : number) : string :=
  match n with
  | NaN => "NaN"
  | Infinity false => "Infinity"
  | Infinity true => "-Infinity"
  | Finite q =>
      let a := Z.abs (Qnum q) in
      let d := Zpos (Qden q) in
      (if (Qnum q <? 0)%Z then "-" else "")
      ++ decimal (a / d)
      ++ (if (a mod d =? 0)%Z then ""
          else "." ++ fraction_digits 20 (a mod d) d)
  end.

Definition digit (c : ascii) : option Z :=
  let n := Z.of_N (N_of_ascii c) in
  if ((48 <=? n) && (n <=? 57))%Z then Some (n - 48) else None.

(** Reads the digits at the head of [s] into the numerator [acc] over the
    denominator [den] ([scale] is 1 in the integer part and 10 in the
    fraction); gives back the remainder of the string and how many digits
    were read. *)
Fixpoint read_digits (s : string) (scale : Z) (acc den : Z) (count : nat)
  : string * Z * Z * nat :=
  match s with
  | EmptyString => (s, acc, den, count)
  | String c t =>
      match digit c with
      | Some k => read_digits t scale (10 * acc + k) (scale * den) (S count)
      | None => (s, acc, den, count)
      end
  end.

Definition read_unsigned (s : string) : number :=
  let '(rest, acc, _, n1) := read_digits s 1 0 1 O in
  match rest with
  | EmptyString =>
      match n1 with
      | O => NaN
      | S _ => num acc
      end
  | String "." t =>
      let '(rest', acc', den, n2) := read_digits t 10 acc 1 O in
      match rest', (n1 + n2)%nat with
      | EmptyString, S _ => Finite (Qmake acc' (Z.to_pos den))
      | _, _ => NaN
      end
  | String _ _ => NaN
  end.

Definition negate (n : number) : number :=
  match n with
  | NaN => NaN
  | Infinity s => Infinity (negb s)
  | Finite q => Finite (Qopp q)
  end.

Definition read_number (s : string) : number :=
  match s with
  | EmptyString => num 0
  | String "-" t => negate (read_unsigned t)
  | String "+" t => read_unsigned t
  | String _ _ => read_unsigned s
  end.

Definition reference : Runtime := {|
  NumberToString := print_number;
  StringToNumber := read_number
|}.

(** ** The examples of the specification, as data *)

Module Examples.

(** Example 1: every criterion matches. *)
Definition school1 : value :=
  Object [("classes", Str "10"); ("location", Str "Delhi");
          ("type", Str "Public"); ("distence", Number (num 5));
          ("fee", Number (num 0)); ("midday", Bool true);
          ("girlSupport", Bool true)].

Definition user1 : value :=
  Object [("class", Number (num 10)); ("location", Str "delhi");
          ("type", Str "public"); ("maxDistance", Number (num 10));
          ("fee", Str "free"); ("middayMeal", Bool true);
          ("girlChild", Bool true)].

(** Example 2: nothing matches. *)
Definition school2 : value :=
  Object [("classes", Array [Str "8"; Str "9"]);
          ("distence", Number (num 50))].

Definition user2 : value :=
  Object [("class", Number (num 10)); ("maxDistance", Number (num 5))].

(** Example 3: the fee criterion alone. *)
Definition school3 : value := Object [("fee", Number (num 500))].

Definition user3 : value := Object [("fee", Str "low")].

(** A school whose [location] is a number, and a user who asks for a
    location. *)
Definition school_numeric_location : value :=
  Object [("location", Number (num 5))].

Definition user_with_location : value := Object [("location", Str "x")].

End Examples.

(** ** Vocabulary of the specification *)

(** The points a set of satisfied criteria is worth: the sum of their
    weights. *)
Definition earned (sat : criterion -> bool) : Z :=
  fold_right (fun c acc => (if sat c then weight c else 0) + acc) 0 criteria.

(** The fee criterion in the specification's words: the school's fee is
    a number, and the user's category is ["free"] with a fee equal to 0,
    ["low"] with a fee of at most 500, or ["medium"] with a fee of at most
    1500. *)
Definition spec_fee_fit (school_fee user_fee : value) : Prop :=
  exists n : number,
    school_fee = Number n
    /\ ((user_fee = Str "free" /\ number_eqb n (num 0) = true)
        \/ (user_fee = Str "low" /\ number_leb n (num 500) = true)
        \/ (user_fee = Str "medium" /\ number_leb n (num 1500) = true)).

(** The field shapes on which the function is total, which include
    those of the data model: a text field ([location], [type]) is a
    string or is left out (any falsy value counts as left out); a class
    label, or the distance bound, is any value with no object inside.
    The other fields may hold anything. *)
Definition is_string (v : value) : bool :=
  match v with
  | Str _ => true
  | _ => false
  end.

Definition text_or_falsy (v : value) : bool :=
  negb (ToBoolean v) || is_string v.

Fixpoint object_free (v : value) : bool :=
  match v with
  | Object _ => false
  | Array elems => forallb object_free elems
  | _ => true
  end.

Definition documented_shapes (school user : value) : Prop :=
  exists sp up : list (string * value),
    school = Object sp /\ user = Object up
    /\ object_free (field "classes" sp) = true
    /\ object_free (field "class" up) = true
    /\ text_or_falsy (field "location" sp) = true
    /\ text_or_falsy (field "location" up) = true
    /\ text_or_falsy (field "type" sp) = true
    /\ text_or_falsy (field "type" up) = true
    /\ object_free (field "maxDistance" up) = true.

(** A class value that is present and is a single value: neither
    [undefined], nor [null], nor an array. *)
Definition single_class_value (c : value) : Prop :=
  c <> Undefined /\ c <> Null /\ isArray c = false.

(** Descending order of scores, as [(a, b) => b.score - a.score] asks. *)
Definition descending (a b : scored) : Prop := score b <= score a.

(** ** The rest of the service

    What surrounds the scoring function in [server.js]: reading the
    schools out of the database snapshot, the object built for each
    school of the answer, the name given to an uploaded file, and the
    text handed to the chatbot. *)

(** [a || b] on values. *)
Definition or_else (a b : value) : value :=
  if ToBoolean a then a else b.

(** The own properties of an object, once each: an entry of the list
    hides the later entries of the same name, as [own] reads them. *)
Fixpoint entries (props : list (string * value)) : list (string * value) :=
  match props with
  | [] => []
  | (k, v) :: t => (k, v) :: filter (fun kv => negb (fst kv =? k)) (entries t)
  end.

(** The elements of an array under their index keys ["0"], ["1"], ... *)
Fixpoint indexed (i : nat) (l : list value) : list (string * value) :=
  match l with
  | [] => []
  | x :: t => (decimal (Z.of_nat i), x) :: indexed (S i) t
  end.

Definition characters (s : string) : list value :=
  map (fun c => Str (String c "")) (list_ascii_of_string s).

(** The own enumerable properties of a value, in enumeration order (the
    properties of an object are listed in that order): what
    [Object.values] and the spread [{...v}] go through.  A number or a
    boolean has none, a string has its characters. *)
Definition own_enumerable (v : value) : list (string * value) :=
  match v with
  | Object props => entries props
  | Array elems => indexed 0 elems
  | Str s => indexed 0 (characters s)
  | Undefined | Null | Bool _ | Number _ => []
  end.

(** [Object.values(v)]: throws on [null] and [undefined]. *)
Definition Object_values (v : value) : completion (list value) :=
  match v with
  | Undefined | Null => TypeError
  | _ => Normal (map snd (own_enumerable v))
  end.

(** [Object.values(snapshot.val() || {})], on the value of the snapshot
    ([null] when the database holds nothing under [schools]). *)
Definition getSchoolsFromDB (snapshot : value) : completion (list value) :=
  Object_values (or_else snapshot (Object [])).

(** [o[k] = v] on a fresh object: an existing property keeps its place,
    a new one goes last. *)
Fixpoint set_prop (k : string) (v : value) (props : list (string * value))
  : list (string * value) :=
  match props with
  | [] => [(k, v)]
  | (k', v') :: t =>
      if k' =? k then (k, v) :: t else (k', v') :: set_prop k v t
  end.

(** The object [{ ...s, score: n }] itself. *)
Definition spread_score (s : value) (n : Z) : value :=
  Object (set_prop "score" (Number (num n)) (own_enumerable s)).

Definition to_object (r : scored) : value :=
  spread_score (school r) (score r).

Section Service.

Context {rt : Runtime}.

(** [x >= y]. *)
Definition GreaterEq (x y : value) : completion bool :=
  px <- ToPrimitive x ;;
  py <- ToPrimitive y ;;
  match px, py with
  | Str a, Str b => Normal (String.leb b a)
  | _, _ => Normal (number_leb (ToNumber py) (ToNumber px))
  end.

(** The test of the [filter] step, [s.score >= 30], on an object of the
    [map] step. *)
Definition reaches_threshold (o : value) : completion bool :=
  s <- Get o "score" ;; GreaterEq s (Number (num 30)).

(** The handler of [POST /api/recommend] from the snapshot on. *)
Definition post_recommend (snapshot user : value) : response :=
  match schools <- getSchoolsFromDB snapshot ;;
        recommendations schools user
  with
  | Normal r => Json r
  | TypeError => Status500 "Recommendation failed"
  end.

(** *** The chatbot's context

    The sign of the rupee in the template is no code unit below 256; its
    text is taken as it comes. *)
Variable rupee : string.

Definition newline : string := String (ascii_of_nat 10) "".

(** [${o.k}] in a template. *)
Definition interpolate (o : value) (k : string) : completion string :=
  v <- Get o k ;; ToString v.

Definition school_line (s : value) : completion string :=
  name <- interpolate s "name" ;;
  location <- interpolate s "location" ;;
  type <- interpolate s "type" ;;
  fee <- interpolate s "fee" ;;
  distence <- interpolate s "distence" ;;
  Normal ("- " ++ name ++ ", " ++ location ++ ", " ++ type ++ ", Fee: "
          ++ rupee ++ fee ++ ", Distance: " ++ distence ++ "km").

(** [schools.map(...).join("\n")] *)
Definition school_context (schools : list value) : completion string :=
  lines <- mapM school_line schools ;;
  Normal (String.concat newline lines).

(** The content of the user message of [generateChatbotResponse]; the
    parameter [language] defaults to ["English"] when it is
    [undefined]. *)
Definition user_message (snapshot query language : value)
  : completion string :=
  let language :=
    match language with
    | Undefined => Str "English"
    | _ => language
    end in
  schools <- getSchoolsFromDB snapshot ;;
  context <- school_context schools ;;
  l <- ToString language ;;
  q <- ToString query ;;
  Normal (newline ++ "Reply in " ++ l ++ "." ++ newline
          ++ "Use this school data:" ++ newline
          ++ context ++ newline ++ newline
          ++ "Question: " ++ q ++ newline ++ "        ").

End Service.

(** *** Uploads *)

(** [Date.now() + "-" + file.originalname]: the clock gives a whole
    number of milliseconds, which prints as its decimal digits. *)
Definition filename (now : Z) (originalname : string) : string :=
  decimal now ++ "-" ++ originalname.

(** [c] occurs in [s]. *)
Fixpoint has_unit (c : ascii) (s : string) : bool :=
  match s with
  | EmptyString => false
  | String a t => Ascii.eqb a c || has_unit c t
  end.

(** How many of the four 20-point criteria are satisfied. *)
Definition twenties (sat : criterion -> bool) : nat :=
  List.length (filter sat [LocationMatch; TypeMatch; DistanceFit; FeeFit]).

(** The properties [calculateScore] reads on each side. *)
Definition school_fields : list string :=
  ["classes"; "location"; "type"; "distence"; "fee"; "midday";
   "girlSupport"].

Definition user_fields : list string :=
  ["class"; "location"; "type"; "maxDistance"; "fee"; "middayMeal";
   "girlChild"].

(** A value that is neither [null] nor [undefined]. *)
Definition defined (v : value) : Prop := v <> Undefined /\ v <> Null.

(** The properties a line of the chatbot's context prints. *)
Definition line_fields : list string :=
  ["name"; "location"; "type"; "fee"; "distence"].

(** * Properties *)

(** ** Completions *)

Lemma bind_Normal {A B : Type} (c : completion A) (k : A -> completion B)
      (b : B) :
  bind c k = Normal b -> exists a, c = Normal a /\ k a = Normal b.
Proof.
  destruct c as [a|]; simpl; intros H.
  - exists a. split; [reflexivity | exact H].
  - discriminate H.
Qed.

Lemma bind_unit {A : Type} (c : completion A) :
  (x <- c ;; Normal x) = c.
Proof. destruct c; reflexivity. Qed.

Lemma andM_true (a b : completion bool) :
  a &&& b = Normal true <-> a = Normal true /\ b = Normal true.
Proof.
  unfold andM. split.
  - destruct a as [[|]|]; simpl; intros H; try discriminate H.
    split; [reflexivity | exact H].
  - intros [-> ->]. reflexivity.
Qed.

Lemma andM_false_left (a b : completion bool) :
  a = Normal false -> a &&& b = Normal false.
Proof. intros ->. reflexivity. Qed.

Lemma orM_true (a b : completion bool) :
  a ||| b = Normal true
  <-> a = Normal true \/ (a = Normal false /\ b = Normal true).
Proof.
  unfold orM. split.
  - destruct a as [[|]|]; simpl; intros H; try discriminate H.
    + left. reflexivity.
    + right. split; [reflexivity | exact H].
  - intros [-> | [-> ->]]; reflexivity.
Qed.

Lemma mapM_Normal_map {A B : Type} (f : A -> completion B) (g : A -> B)
      (l : list A) :
  (forall x, In x l -> f x = Normal (g x)) -> mapM f l = Normal (map g l).
Proof.
  induction l as [|x t IH]; simpl; intros H.
  - reflexivity.
  - rewrite (H x (or_introl eq_refl)). simpl.
    rewrite IH by (intros y Hy; apply H; right; exact Hy).
    reflexivity.
Qed.

Lemma mapM_total {A B : Type} (f : A -> completion B) (l : list A) :
  (forall x, In x l -> exists y, f x = Normal y) ->
  exists l', mapM f l = Normal l'.
Proof.
  induction l as [|x t IH]; simpl; intros H.
  - exists []. reflexivity.
  - destruct (H x (or_introl eq_refl)) as [y Hy].
    destruct IH as [l' Hl']; [intros z Hz; apply H; right; exact Hz|].
    exists (y :: l'). rewrite Hy, Hl'. reflexivity.
Qed.

Lemma mapM_Forall2 {A B : Type} (f : A -> completion B) (l : list A)
      (l' : list B) :
  mapM f l = Normal l' <-> Forall2 (fun x y => f x = Normal y) l l'.
Proof.
  revert l'. induction l as [|x t IH]; simpl; intros l'.
  - split.
    + intros H. injection H as <-. constructor.
    + intros H. inversion H. reflexivity.
  - split.
    + intros H. apply bind_Normal in H. destruct H as [y [Hy H]].
      apply bind_Normal in H. destruct H as [ys [Hys H]].
      injection H as <-. constructor; [exact Hy | apply IH; exact Hys].
    + intros H. inversion H as [|x' y' t' ys Hy Hys]; subst.
      rewrite Hy. simpl. apply IH in Hys. rewrite Hys. reflexivity.
Qed.

(** ** Numbers and strings *)

Lemma number_leb_finite (p q : Q) :
  number_leb (Finite p) (Finite q) = true <-> (p <= q)%Q.
Proof. simpl. apply Qle_bool_iff. Qed.

Lemma number_eqb_finite (p q : Q) :
  number_eqb (Finite p) (Finite q) = true <-> (p == q)%Q.
Proof. simpl. apply Qeq_bool_iff. Qed.

(** A number equal to 0 is at most 500, and a number that is at most 500
    is at most 1500. *)
Lemma zero_le_500 (n : number) :
  number_eqb n (num 0) = true -> number_leb n (num 500) = true.
Proof.
  destruct n as [|s|q]; simpl; try discriminate.
  rewrite Qeq_bool_iff, Qle_bool_iff. intros ->.
  unfold Qle; simpl; lia.
Qed.

Lemma le_500_le_1500 (n : number) :
  number_leb n (num 500) = true -> number_leb n (num 1500) = true.
Proof.
  destruct n as [|[|]|q]; simpl; try discriminate; try reflexivity.
  rewrite !Qle_bool_iff. intros H.
  apply Qle_trans with (y := inject_Z 500); [exact H|].
  unfold Qle; simpl; lia.
Qed.

Lemma prefix_empty (s : string) : String.prefix "" s = true.
Proof. destruct s; reflexivity. Qed.

(** The empty string occurs in every string. *)
Lemma includes_empty (s : string) : includes s "" = true.
Proof. destruct s; simpl; reflexivity. Qed.

(** ** Values *)

Lemma Get_Object (props : list (string * value)) (k : string) :
  Get (Object props) k = Normal (field k props).
Proof. reflexivity. Qed.

Lemma typeof_number (v : value) :
  (typeof v =? "number") = true <-> exists n, v = Number n.
Proof.
  split.
  - destruct v; simpl; try discriminate. intros _. eexists; reflexivity.
  - intros [n ->]. reflexivity.
Qed.

Lemma StrictEquals_Str (v : value) (s : string) :
  StrictEquals v (Str s) = true <-> v = Str s.
Proof.
  split.
  - destruct v; simpl; try discriminate.
    intros H. apply String.eqb_eq in H. subst. reflexivity.
  - intros ->. simpl. apply String.eqb_refl.
Qed.

Lemma StrictEquals_true (v : value) :
  StrictEquals v (Bool true) = true <-> v = Bool true.
Proof.
  split.
  - destruct v as [| |[|]| | | |]; simpl; try discriminate. reflexivity.
  - intros ->. reflexivity.
Qed.

Lemma ToBoolean_empty : ToBoolean (Str "") = false.
Proof. reflexivity. Qed.

(** ** Coercions *)

Section CoercionFacts.

Context {rt : Runtime}.

(** Induction on values, with the elements of an array as premises. *)
Lemma value_rect_elems (P : value -> Prop) :
  P Undefined -> P Null -> (forall b, P (Bool b)) ->
  (forall n, P (Number n)) -> (forall s, P (Str s)) ->
  (forall elems, Forall P elems -> P (Array elems)) ->
  (forall props, P (Object props)) ->
  forall v, P v.
Proof.
  intros HU HN HB HNum HS HA HO.
  fix IH 1. intros [| |b|n|s|elems|props].
  - exact HU.
  - exact HN.
  - apply HB.
  - apply HNum.
  - apply HS.
  - apply HA. induction elems as [|x t IHt].
    + constructor.
    + constructor; [apply IH | exact IHt].
  - apply HO.
Qed.

(** The string of an array, element by element. *)
Lemma ToString_Array_nil : ToString (Array []) = Normal "".
Proof. reflexivity. Qed.

Lemma ToString_Array_one (x : value) :
  x <> Undefined -> x <> Null -> ToString (Array [x]) = ToString x.
Proof.
  intros HU HN. simpl.
  destruct x; try contradiction; simpl;
    first [reflexivity | apply bind_unit].
Qed.

Lemma ToString_Array_cons (x y : value) (t : list value) :
  ToString (Array (x :: y :: t)) =
  (s <- match x with
        | Undefined | Null => Normal ""
        | _ => ToString x
        end ;;
   r <- ToString (Array (y :: t)) ;; Normal (s ++ "," ++ r)).
Proof. reflexivity. Qed.

(** A value with no object inside always has a string. *)
Lemma ToString_object_free (v : value) :
  object_free v = true -> exists s, ToString v = Normal s.
Proof.
  induction v as [| |b|n|s|elems IH|props] using value_rect_elems;
    intros Hfree.
  - eexists; reflexivity.
  - eexists; reflexivity.
  - destruct b; eexists; reflexivity.
  - eexists; reflexivity.
  - eexists; reflexivity.
  - simpl in Hfree. rewrite forallb_forall in Hfree.
    induction elems as [|x t IHt].
    + eexists; reflexivity.
    + assert (Hx : exists s, match x with
                             | Undefined | Null => Normal ""
                             | _ => ToString x
                             end = Normal s).
      { inversion IH as [|? ? Px _]; subst.
        destruct (Px (Hfree x (or_introl eq_refl))) as [s Hs].
        destruct x; try (exists s; exact Hs); eexists; reflexivity. }
      destruct Hx as [s Hs].
      destruct t as [|y t'].
      * exists s. simpl. simpl in Hs. rewrite Hs. reflexivity.
      * destruct IHt as [r Hr].
        { inversion IH; assumption. }
        { intros z Hz. apply Hfree. right. exact Hz. }
        exists (s ++ "," ++ r).
        rewrite ToString_Array_cons, Hs, Hr. reflexivity.
  - discriminate Hfree.
Qed.

Lemma mapM_ToString_object_free (elems : list value) :
  forallb object_free elems = true ->
  exists strs, mapM ToString elems = Normal strs.
Proof.
  intros H. apply mapM_total. intros x Hx.
  apply ToString_object_free.
  rewrite forallb_forall in H. apply H. exact Hx.
Qed.

Lemma ToPrimitive_object_free (v : value) :
  object_free v = true -> exists p, ToPrimitive v = Normal p.
Proof.
  intros H. destruct v; try (eexists; reflexivity).
  - destruct (ToString_object_free _ H) as [s Hs].
    exists (Str s). unfold ToPrimitive. rewrite Hs. reflexivity.
  - discriminate H.
Qed.

(** Comparing a number with a value that has no object inside never
    throws. *)
Lemma LessEq_number_total (n : number) (y : value) :
  object_free y = true -> exists b, LessEq (Number n) y = Normal b.
Proof.
  intros H. destruct (ToPrimitive_object_free y H) as [p Hp].
  unfold LessEq. simpl. rewrite Hp. simpl.
  destruct p; eexists; reflexivity.
Qed.

(** Comparing two numbers is the comparison of numbers. *)
Lemma LessEq_numbers (a b : number) :
  LessEq (Number a) (Number b) = Normal (number_leb a b).
Proof. reflexivity. Qed.

End CoercionFacts.

(** ** The score as a sum over the criteria *)

Section ScoringFacts.

Context {rt : Runtime}.

Lemma earned_range (sat : criterion -> bool) : 0 <= earned sat <= 120.
Proof.
  unfold earned, criteria. simpl.
  destruct (sat ClassMatch), (sat LocationMatch), (sat TypeMatch),
    (sat DistanceFit), (sat FeeFit), (sat MiddayMeal), (sat GirlChild);
    simpl; lia.
Qed.

Lemma earned_all : earned (fun _ => true) = 120.
Proof. reflexivity. Qed.

Lemma earned_none : earned (fun _ => false) = 0.
Proof. reflexivity. Qed.

(** Satisfying more criteria earns at least as much. *)
Lemma earned_monotone (sat sat' : criterion -> bool) :
  (forall c, sat c = true -> sat' c = true) -> earned sat <= earned sat'.
Proof.
  intros H. unfold earned, criteria. simpl.
  pose proof (H ClassMatch). pose proof (H LocationMatch).
  pose proof (H TypeMatch). pose proof (H DistanceFit).
  pose proof (H FeeFit). pose proof (H MiddayMeal). pose proof (H GirlChild).
  destruct (sat ClassMatch), (sat LocationMatch), (sat TypeMatch),
    (sat DistanceFit), (sat FeeFit), (sat MiddayMeal), (sat GirlChild);
    repeat match goal with
           | K : true = true -> _ |- _ => rewrite (K eq_refl); clear K
           | K : false = true -> _ |- _ => clear K
           end;
    simpl;
    destruct (sat' ClassMatch), (sat' LocationMatch), (sat' TypeMatch),
      (sat' DistanceFit), (sat' FeeFit), (sat' MiddayMeal),
      (sat' GirlChild); simpl; lia.
Qed.

(** One more criterion earns exactly its weight more. *)
Lemma earned_one_more (sat sat' : criterion -> bool) (j : criterion) :
  sat j = false -> sat' j = true ->
  (forall c, c <> j -> sat' c = sat c) ->
  earned sat' = earned sat + weight j.
Proof.
  intros Hj Hj' Hother. unfold earned, criteria. cbn [fold_right].
  destruct j;
    repeat match goal with
           | |- context [sat' ?c] =>
               first [ rewrite Hj'
                     | rewrite (Hother c) by discriminate ]
           end;
    rewrite Hj;
    repeat match goal with
           | |- context [if sat ?c then _ else _] => destruct (sat c)
           end;
    simpl; lia.
Qed.

(** When every condition evaluates, the score is what the satisfied
    criteria earn. *)
Lemma score_of_conditions (school user : value)
      (sat : criterion -> bool) :
  (forall c, condition c school user = Normal (sat c)) ->
  calculateScore school user = Normal (earned sat).
Proof.
  intros H. unfold calculateScore, award.
  pose proof (H ClassMatch) as H1. pose proof (H LocationMatch) as H2.
  pose proof (H TypeMatch) as H3. pose proof (H DistanceFit) as H4.
  pose proof (H FeeFit) as H5. pose proof (H MiddayMeal) as H6.
  pose proof (H GirlChild) as H7. simpl in H1, H2, H3, H4, H5, H6, H7.
  rewrite H1, H2, H3, H4, H5, H6, H7. unfold earned, criteria. simpl.
  destruct (sat ClassMatch), (sat LocationMatch), (sat TypeMatch),
    (sat DistanceFit), (sat FeeFit), (sat MiddayMeal), (sat GirlChild);
    reflexivity.
Qed.

(** And the score is returned only when every condition evaluates. *)
Lemma conditions_of_score (school user : value) (n : Z) :
  calculateScore school user = Normal n ->
  exists sat : criterion -> bool,
    (forall c, condition c school user = Normal (sat c)) /\ n = earned sat.
Proof.
  unfold calculateScore, award. intros H.
  destruct (class_match school user) as [b1|] eqn:H1; [|discriminate H].
  destruct (location_match school user) as [b2|] eqn:H2; [|discriminate H].
  destruct (type_match school user) as [b3|] eqn:H3; [|discriminate H].
  destruct (distance_fit school user) as [b4|] eqn:H4; [|discriminate H].
  destruct (fee_fit school user) as [b5|] eqn:H5; [|discriminate H].
  destruct (midday_match school user) as [b6|] eqn:H6; [|discriminate H].
  destruct (girl_match school user) as [b7|] eqn:H7; [|discriminate H].
  exists (fun c => match c with
                   | ClassMatch => b1
                   | LocationMatch => b2
                   | TypeMatch => b3
                   | DistanceFit => b4
                   | FeeFit => b5
                   | MiddayMeal => b6
                   | GirlChild => b7
                   end).
  split.
  - intros []; simpl; assumption.
  - simpl in H. injection H as <-. unfold earned, criteria. simpl.
    destruct b1, b2, b3, b4, b5, b6, b7; reflexivity.
Qed.

(** The function throws exactly when the condition of a criterion does. *)
Lemma score_throws (school user : value) :
  calculateScore school user = TypeError
  <-> exists c, condition c school user = TypeError.
Proof.
  split.
  - unfold calculateScore, award. intros H.
    destruct (class_match school user) as [b1|] eqn:H1;
      [|exists ClassMatch; exact H1].
    destruct (location_match school user) as [b2|] eqn:H2;
      [|exists LocationMatch; exact H2].
    destruct (type_match school user) as [b3|] eqn:H3;
      [|exists TypeMatch; exact H3].
    destruct (distance_fit school user) as [b4|] eqn:H4;
      [|exists DistanceFit; exact H4].
    destruct (fee_fit school user) as [b5|] eqn:H5;
      [|exists FeeFit; exact H5].
    destruct (midday_match school user) as [b6|] eqn:H6;
      [|exists MiddayMeal; exact H6].
    destruct (girl_match school user) as [b7|] eqn:H7;
      [|exists GirlChild; exact H7].
    discriminate H.
  - intros [c Hc].
    destruct (calculateScore school user) as [n|] eqn:Hn; [|reflexivity].
    apply conditions_of_score in Hn. destruct Hn as [sat [Hsat _]].
    rewrite (Hsat c) in Hc. discriminate Hc.
Qed.

End ScoringFacts.

(** ** The criteria on records *)

Section CriteriaFacts.

Context {rt : Runtime}.

Variables sp up : list (string * value).

(** *** Location and type *)

Lemma location_match_school_falsy :
  ToBoolean (field "location" sp) = false ->
  location_match (Object sp) (Object up) = Normal false.
Proof. intros H. unfold location_match. simpl. rewrite H. reflexivity. Qed.

Lemma location_match_user_falsy :
  ToBoolean (field "location" up) = false ->
  location_match (Object sp) (Object up) = Normal false.
Proof.
  intros H. unfold location_match. simpl. rewrite H.
  destruct (ToBoolean (field "location" sp)); reflexivity.
Qed.

Lemma location_match_truthy :
  ToBoolean (field "location" sp) = true ->
  ToBoolean (field "location" up) = true ->
  location_match (Object sp) (Object up) =
  (a <- toLowerCase (field "location" sp) ;;
   b <- toLowerCase (field "location" up) ;;
   Normal (includes a b)).
Proof.
  intros Hs Hu. unfold location_match. simpl. rewrite Hs, Hu. reflexivity.
Qed.

Lemma type_match_school_falsy :
  ToBoolean (field "type" sp) = false ->
  type_match (Object sp) (Object up) = Normal false.
Proof. intros H. unfold type_match. simpl. rewrite H. reflexivity. Qed.

Lemma type_match_user_falsy :
  ToBoolean (field "type" up) = false ->
  type_match (Object sp) (Object up) = Normal false.
Proof.
  intros H. unfold type_match. simpl. rewrite H.
  destruct (ToBoolean (field "type" sp)); reflexivity.
Qed.

Lemma type_match_truthy :
  ToBoolean (field "type" sp) = true ->
  ToBoolean (field "type" up) = true ->
  type_match (Object sp) (Object up) =
  (a <- toLowerCase (field "type" sp) ;;
   b <- toLowerCase (field "type" up) ;;
   Normal (a =? b)).
Proof.
  intros Hs Hu. unfold type_match. simpl. rewrite Hs, Hu. reflexivity.
Qed.

Lemma text_or_falsy_lower (v : value) :
  text_or_falsy v = true -> ToBoolean v = true ->
  exists s, v = Str s.
Proof.
  unfold text_or_falsy. intros H Ht. rewrite Ht in H. simpl in H.
  destruct v; try discriminate H. eexists; reflexivity.
Qed.

Lemma location_match_total :
  text_or_falsy (field "location" sp) = true ->
  text_or_falsy (field "location" up) = true ->
  exists b, location_match (Object sp) (Object up) = Normal b.
Proof.
  intros Hs Hu.
  destruct (ToBoolean (field "location" sp)) eqn:Ts;
    [|exists false; apply location_match_school_falsy; exact Ts].
  destruct (ToBoolean (field "location" up)) eqn:Tu;
    [|exists false; apply location_match_user_falsy; exact Tu].
  destruct (text_or_falsy_lower _ Hs Ts) as [a Ha].
  destruct (text_or_falsy_lower _ Hu Tu) as [b Hb].
  rewrite (location_match_truthy Ts Tu), Ha, Hb.
  eexists; reflexivity.
Qed.

Lemma type_match_total :
  text_or_falsy (field "type" sp) = true ->
  text_or_falsy (field "type" up) = true ->
  exists b, type_match (Object sp) (Object up) = Normal b.
Proof.
  intros Hs Hu.
  destruct (ToBoolean (field "type" sp)) eqn:Ts;
    [|exists false; apply type_match_school_falsy; exact Ts].
  destruct (ToBoolean (field "type" up)) eqn:Tu;
    [|exists false; apply type_match_user_falsy; exact Tu].
  destruct (text_or_falsy_lower _ Hs Ts) as [a Ha].
  destruct (text_or_falsy_lower _ Hu Tu) as [b Hb].
  rewrite (type_match_truthy Ts Tu), Ha, Hb.
  eexists; reflexivity.
Qed.

(** *** Class *)

Lemma class_match_single (c : value) :
  field "classes" sp = c -> single_class_value c ->
  class_match (Object sp) (Object up) =
  (a <- ToString c ;;
   b <- ToString (field "class" up) ;;
   Normal (a =? b)).
Proof.
  intros Hc [HU [HN HA]]. unfold class_match. simpl. rewrite Hc.
  destruct c; try contradiction; try discriminate HA; reflexivity.
Qed.

Lemma class_match_array (elems : list value) :
  field "classes" sp = Array elems ->
  class_match (Object sp) (Object up) =
  (strs <- mapM ToString elems ;;
   key <- ToString (field "class" up) ;;
   Normal (existsb (fun e => e =? key) strs)).
Proof. intros Hc. unfold class_match. simpl. rewrite Hc. reflexivity. Qed.

Lemma class_match_absent :
  field "classes" sp = Undefined \/ field "classes" sp = Null ->
  class_match (Object sp) (Object up) = Normal false.
Proof.
  intros [H|H]; unfold class_match; simpl; rewrite H; reflexivity.
Qed.

Lemma class_match_total :
  object_free (field "classes" sp) = true ->
  object_free (field "class" up) = true ->
  exists b, class_match (Object sp) (Object up) = Normal b.
Proof.
  intros Hs Hu.
  destruct (ToString_object_free _ Hu) as [key Hkey].
  destruct (field "classes" sp) as [| |b|n|s|elems|props] eqn:Hc.
  - exists false. apply class_match_absent. left. exact Hc.
  - exists false. apply class_match_absent. right. exact Hc.
  - destruct (ToString_object_free _ Hs) as [a Ha].
    rewrite (class_match_single (Bool b) Hc)
      by (repeat split; discriminate || reflexivity).
    rewrite Ha, Hkey. eexists; reflexivity.
  - destruct (ToString_object_free _ Hs) as [a Ha].
    rewrite (class_match_single (Number n) Hc)
      by (repeat split; discriminate || reflexivity).
    rewrite Ha, Hkey. eexists; reflexivity.
  - destruct (ToString_object_free _ Hs) as [a Ha].
    rewrite (class_match_single (Str s) Hc)
      by (repeat split; discriminate || reflexivity).
    rewrite Ha, Hkey. eexists; reflexivity.
  - destruct (mapM_ToString_object_free elems Hs) as [strs Hstrs].
    rewrite (class_match_array elems Hc), Hstrs, Hkey.
    eexists; reflexivity.
  - discriminate Hs.
Qed.

(** *** Distance *)

Lemma distance_fit_not_number :
  (typeof (field "distence" sp) =? "number") = false ->
  distance_fit (Object sp) (Object up) = Normal false.
Proof. intros H. unfold distance_fit. simpl. rewrite H. reflexivity. Qed.

Lemma distance_fit_number (d : number) :
  field "distence" sp = Number d ->
  distance_fit (Object sp) (Object up) =
  LessEq (Number d) (field "maxDistance" up).
Proof. intros H. unfold distance_fit. simpl. rewrite H. reflexivity. Qed.

Lemma distance_fit_total :
  object_free (field "maxDistance" up) = true ->
  exists b, distance_fit (Object sp) (Object up) = Normal b.
Proof.
  intros H.
  destruct (typeof (field "distence" sp) =? "number") eqn:T.
  - apply typeof_number in T. destruct T as [d Hd].
    rewrite (distance_fit_number d Hd). apply LessEq_number_total. exact H.
  - exists false. apply distance_fit_not_number. exact T.
Qed.

(** *** Fee *)

(** The fee condition on two records, as a boolean. *)
Lemma fee_fit_Object :
  fee_fit (Object sp) (Object up) =
  Normal match field "fee" sp with
         | Number n =>
             StrictEquals (field "fee" up) (Str "free")
             && number_eqb n (num 0)
             || StrictEquals (field "fee" up) (Str "low")
                && number_leb n (num 500)
             || StrictEquals (field "fee" up) (Str "medium")
                && number_leb n (num 1500)
         | _ => false
         end.
Proof.
  unfold fee_fit. simpl.
  destruct (field "fee" sp) as [| |b|n|s|elems|props]; try reflexivity.
  cbn [typeof String.eqb]. unfold andM, orM, bind.
  change (LessEq (Number n) (Number (num 500)))
    with (Normal (number_leb n (num 500))).
  change (LessEq (Number n) (Number (num 1500)))
    with (Normal (number_leb n (num 1500))).
  change (StrictEquals (Number n) (Number (num 0)))
    with (number_eqb n (num 0)).
  destruct (StrictEquals (field "fee" up) (Str "free")),
    (StrictEquals (field "fee" up) (Str "low")),
    (StrictEquals (field "fee" up) (Str "medium")),
    (number_eqb n (num 0)), (number_leb n (num 500)),
    (number_leb n (num 1500)); reflexivity.
Qed.

(** The condition holds exactly when the specification's wording does. *)
Lemma fee_fit_spec :
  fee_fit (Object sp) (Object up) = Normal true
  <-> spec_fee_fit (field "fee" sp) (field "fee" up).
Proof.
  rewrite fee_fit_Object. unfold spec_fee_fit. split.
  - destruct (field "fee" sp) as [| |b|n|s|elems|props]; try discriminate.
    intros H. injection H as H. exists n. split; [reflexivity|].
    apply orb_true_iff in H. destruct H as [H|H].
    + apply orb_true_iff in H. destruct H as [H|H];
        apply andb_true_iff in H; destruct H as [Hu Hn];
        apply StrictEquals_Str in Hu; auto.
    + apply andb_true_iff in H. destruct H as [Hu Hn].
      apply StrictEquals_Str in Hu. auto.
  - intros [n [-> H]]. f_equal.
    destruct H as [[Hu Hn] | [[Hu Hn] | [Hu Hn]]];
      rewrite Hu, Hn; simpl; rewrite ?orb_true_r; reflexivity.
Qed.

Lemma fee_fit_total : exists b, fee_fit (Object sp) (Object up) = Normal b.
Proof. rewrite fee_fit_Object. eexists; reflexivity. Qed.

(** *** Schemes *)

Lemma midday_match_Object :
  midday_match (Object sp) (Object up) =
  Normal (ToBoolean (field "middayMeal" up)
          && StrictEquals (field "midday" sp) (Bool true)).
Proof.
  unfold midday_match. simpl.
  destruct (ToBoolean (field "middayMeal" up)); reflexivity.
Qed.

Lemma girl_match_Object :
  girl_match (Object sp) (Object up) =
  Normal (ToBoolean (field "girlChild" up)
          && StrictEquals (field "girlSupport" sp) (Bool true)).
Proof.
  unfold girl_match. simpl.
  destruct (ToBoolean (field "girlChild" up)); reflexivity.
Qed.

End CriteriaFacts.

(** On the documented field shapes every condition evaluates. *)
Lemma conditions_total {rt : Runtime} (school user : value) :
  documented_shapes school user ->
  forall c, exists b, condition c school user = Normal b.
Proof.
  intros [sp [up [-> [-> [Hcs [Hcu [Hls [Hlu [Hts [Htu Hm]]]]]]]]]] c.
  destruct c; simpl.
  - apply class_match_total; assumption.
  - apply location_match_total; assumption.
  - apply type_match_total; assumption.
  - apply distance_fit_total; assumption.
  - apply fee_fit_total.
  - rewrite midday_match_Object. eexists; reflexivity.
  - rewrite girl_match_Object. eexists; reflexivity.
Qed.

(** Conditions that all evaluate have a truth assignment. *)
Lemma conditions_assignment {rt : Runtime} (school user : value) :
  (forall c, exists b, condition c school user = Normal b) ->
  exists sat : criterion -> bool,
    forall c, condition c school user = Normal (sat c).
Proof.
  intros H.
  exists (fun c => match condition c school user with
                   | Normal b => b
                   | TypeError => false
                   end).
  intros c. destruct (H c) as [b Hb]. rewrite Hb. reflexivity.
Qed.

(** ** Sorting by descending score *)

Section SortFacts.

Variable A : Type.
Variable key : A -> Z.

Let cmp (a b : A) : Z := key b - key a.
Let desc (a b : A) : Prop := key b <= key a.

Lemma insert_Permutation (x : A) (l : list A) :
  Permutation (insert cmp x l) (x :: l).
Proof.
  induction l as [|y t IH]; simpl.
  - apply Permutation_refl.
  - destruct (cmp x y <=? 0)%Z.
    + apply Permutation_refl.
    + apply perm_trans with (y :: x :: t).
      * apply perm_skip. exact IH.
      * apply perm_swap.
Qed.

Lemma sort_Permutation (l : list A) : Permutation (sort cmp l) l.
Proof.
  induction l as [|x t IH]; simpl.
  - apply perm_nil.
  - apply perm_trans with (x :: sort cmp t).
    + apply insert_Permutation.
    + apply perm_skip. exact IH.
Qed.

Lemma insert_sorted (x : A) (l : list A) :
  StronglySorted desc l -> StronglySorted desc (insert cmp x l).
Proof.
  induction l as [|y t IH]; simpl; intros Hs.
  - constructor; constructor.
  - inversion Hs as [|? ? Ht Hy]; subst.
    destruct (cmp x y <=? 0)%Z eqn:C.
    + apply Z.leb_le in C. unfold cmp in C.
      constructor; [exact Hs|].
      constructor; [unfold desc; lia|].
      eapply Forall_impl; [|exact Hy].
      unfold desc. intros z Hz. lia.
    + apply Z.leb_gt in C. unfold cmp in C.
      constructor; [apply IH; exact Ht|].
      eapply Permutation_Forall.
      * apply Permutation_sym, insert_Permutation.
      * constructor; [unfold desc; lia | exact Hy].
Qed.

Lemma sort_sorted (l : list A) : StronglySorted desc (sort cmp l).
Proof.
  induction l as [|x t IH]; simpl.
  - constructor.
  - apply insert_sorted. exact IH.
Qed.

(** Two sorted arrangements of the same elements coincide when no two
    of the elements tie. *)
Lemma sorted_arrangement_unique (l1 l2 : list A) :
  StronglySorted desc l1 -> StronglySorted desc l2 ->
  Permutation l1 l2 ->
  (forall a b, In a l1 -> In b l1 -> key a = key b -> a = b) ->
  l1 = l2.
Proof.
  revert l2. induction l1 as [|a1 t1 IH]; intros l2 S1 S2 P Hinj.
  - apply Permutation_nil in P. symmetry. exact P.
  - destruct l2 as [|a2 t2].
    + apply Permutation_sym, Permutation_nil in P. discriminate P.
    + inversion S1 as [|? ? St1 F1]; subst.
      inversion S2 as [|? ? St2 F2]; subst.
      assert (E : a1 = a2).
      { assert (In1 : In a1 (a2 :: t2))
          by (eapply Permutation_in; [exact P | left; reflexivity]).
        assert (In2 : In a2 (a1 :: t1))
          by (eapply Permutation_in;
              [apply Permutation_sym; exact P | left; reflexivity]).
        destruct In1 as [E|In1]; [symmetry; exact E|].
        destruct In2 as [E|In2]; [exact E|].
        rewrite Forall_forall in F1, F2.
        pose proof (F1 a2 In2) as L1. pose proof (F2 a1 In1) as L2.
        unfold desc in L1, L2.
        apply Hinj; [left; reflexivity | right; exact In2 | lia]. }
      subst a2. f_equal.
      apply IH; [exact St1 | exact St2 | |].
      * eapply Permutation_cons_inv. exact P.
      * intros a b Ha Hb. apply Hinj; right; assumption.
Qed.

End SortFacts.

Lemma filter_Permutation {A : Type} (p : A -> bool) (l l' : list A) :
  Permutation l l' -> Permutation (filter p l) (filter p l').
Proof.
  induction 1 as [|x l l' _ IH|x y l|l l' l'' _ IH1 _ IH2]; simpl.
  - apply perm_nil.
  - destruct (p x); [apply perm_skip|]; exact IH.
  - destruct (p x), (p y);
      first [apply perm_swap | apply Permutation_refl].
  - eapply perm_trans; eassumption.
Qed.

Lemma filter_map_commute {A B : Type} (g : A -> B) (p : B -> bool)
      (l : list A) :
  filter p (map g l) = map g (filter (fun x => p (g x)) l).
Proof.
  induction l as [|x t IH]; simpl.
  - reflexivity.
  - destruct (p (g x)); simpl; rewrite IH; reflexivity.
Qed.

(** ** The pipeline *)

Section RecommendFacts.

Context {rt : Runtime}.

Lemma with_score_Normal (user s : value) (n : Z) :
  calculateScore s user = Normal n ->
  with_score user s = Normal {| school := s; score := n |}.
Proof. intros H. unfold with_score. rewrite H. reflexivity. Qed.

(** When every score is computed, the pipeline returns the schools that
    reach 30, each with its score, by descending score. *)
Lemma recommendations_spec (schools : list value) (user : value)
      (score_of : value -> Z) :
  (forall s, In s schools -> calculateScore s user = Normal (score_of s)) ->
  exists out,
    recommendations schools user = Normal out
    /\ Permutation out
         (map (fun s => {| school := s; score := score_of s |})
              (filter (fun s => (score_of s >=? 30)%Z) schools))
    /\ StronglySorted descending out.
Proof.
  intros H. unfold recommendations.
  rewrite (mapM_Normal_map (with_score user)
             (fun s => {| school := s; score := score_of s |}))
    by (intros s Hs; apply with_score_Normal, H; exact Hs).
  simpl. eexists. split; [reflexivity|]. split.
  - eapply perm_trans; [apply sort_Permutation|].
    rewrite filter_map_commute. simpl. apply Permutation_refl.
  - apply sort_sorted.
Qed.

End RecommendFacts.

(** * The claims of the specification *)

Import Examples.

(** ** Throwing *)

(** A truthy location that is no string, on either side, makes the
    location test throw as soon as both sides are truthy. *)
Lemma location_match_throws (sp up : list (string * value)) :
  ToBoolean (field "location" sp) = true ->
  ToBoolean (field "location" up) = true ->
  is_string (field "location" sp) && is_string (field "location" up) = false ->
  location_match (Object sp) (Object up) = TypeError.
Proof.
  intros Ts Tu H. rewrite (location_match_truthy sp up Ts Tu).
  destruct (field "location" sp); try reflexivity.
  destruct (field "location" up); try reflexivity.
  discriminate H.
Qed.

Lemma type_match_throws (sp up : list (string * value)) :
  ToBoolean (field "type" sp) = true ->
  ToBoolean (field "type" up) = true ->
  is_string (field "type" sp) && is_string (field "type" up) = false ->
  type_match (Object sp) (Object up) = TypeError.
Proof.
  intros Ts Tu H. rewrite (type_match_truthy sp up Ts Tu).
  destruct (field "type" sp); try reflexivity.
  destruct (field "type" up); try reflexivity.
  discriminate H.
Qed.

(** C1 (where the code departs from the claim).  The claim is that
    [calculateScore] returns for every school record and user profile,
    a numeric [location] or [type] included, the criterion then counting
    for nothing.  On the school [{location: 5}] and the user
    [{location: "x"}] the function does not return: both locations are
    truthy, so [school.location.toLowerCase()] is called on a number and
    a [TypeError] is thrown, whatever the engine's number conversions.
    The same happens for every pair of records whose locations, or
    types, are both truthy and are not both strings. *)
Theorem calculateScore_throws_on_numeric_location :
  forall rt : Runtime,
    calculateScore school_numeric_location user_with_location = TypeError
    /\ (forall sp up : list (string * value),
           ToBoolean (field "location" sp) = true ->
           ToBoolean (field "location" up) = true ->
           is_string (field "location" sp)
           && is_string (field "location" up) = false ->
           calculateScore (Object sp) (Object up) = TypeError)
    /\ (forall sp up : list (string * value),
           ToBoolean (field "type" sp) = true ->
           ToBoolean (field "type" up) = true ->
           is_string (field "type" sp)
           && is_string (field "type" up) = false ->
           calculateScore (Object sp) (Object up) = TypeError).
Proof.
  intros rt. split; [reflexivity|]. split.
  - intros sp up Ts Tu H. apply score_throws. exists LocationMatch.
    apply location_match_throws; assumption.
  - intros sp up Ts Tu H. apply score_throws. exists TypeMatch.
    apply type_match_throws; assumption.
Qed.

Lemma calculateScore_throws_on_numeric_location_witness :
  @calculateScore reference
     (Object [("classes", Str "10"); ("type", Number (num 7))]) user1
  = TypeError.
Proof.
  apply (proj2 (proj2 (calculateScore_throws_on_numeric_location reference))
           [("classes", Str "10"); ("type", Number (num 7))]
           [("class", Number (num 10)); ("location", Str "delhi");
            ("type", Str "public"); ("maxDistance", Number (num 10));
            ("fee", Str "free"); ("middayMeal", Bool true);
            ("girlChild", Bool true)]);
    reflexivity.
Defined.

(** ** Range *)

(** C2.  The weights of the seven criteria add up to 120 and none of
    them is negative, so no step lowers the score; whenever
    [calculateScore] returns, the value is an integer between 0 and 120;
    and it does return, with such a value, on every school record and
    user profile whose fields have the documented shapes. *)
Theorem calculateScore_range :
  forall rt : Runtime,
    fold_right Z.add 0 (map weight criteria) = 120
    /\ (forall c, 0 < weight c)
    /\ (forall (cond : completion bool) (c : criterion) (score score' : Z),
           award cond (weight c) score = Normal score' -> score <= score')
    /\ (forall (school user : value) (n : Z),
           calculateScore school user = Normal n -> 0 <= n <= 120)
    /\ (forall school user : value,
           documented_shapes school user ->
           exists n, calculateScore school user = Normal n
                     /\ 0 <= n <= 120).
Proof.
  intros rt. split; [reflexivity|]. split; [intros []; reflexivity|].
  split; [|split].
  - intros cond c score score' H. unfold award in H.
    destruct cond as [[|]|]; simpl in H; try discriminate H;
      injection H as <-; destruct c; simpl; lia.
  - intros school user n H. apply conditions_of_score in H.
    destruct H as [sat [_ ->]]. apply earned_range.
  - intros school user H.
    destruct (conditions_assignment school user (conditions_total _ _ H))
      as [sat Hsat].
    exists (earned sat). split.
    + apply score_of_conditions. exact Hsat.
    + apply earned_range.
Qed.

Lemma documented_shapes_example1 : documented_shapes school1 user1.
Proof.
  exists [("classes", Str "10"); ("location", Str "Delhi");
          ("type", Str "Public"); ("distence", Number (num 5));
          ("fee", Number (num 0)); ("midday", Bool true);
          ("girlSupport", Bool true)],
         [("class", Number (num 10)); ("location", Str "delhi");
          ("type", Str "public"); ("maxDistance", Number (num 10));
          ("fee", Str "free"); ("middayMeal", Bool true);
          ("girlChild", Bool true)].
  repeat split; reflexivity.
Defined.

Lemma calculateScore_range_witness :
  (0 <= 120 <= 120)
  /\ exists n, @calculateScore reference school1 user1 = Normal n
               /\ 0 <= n <= 120.
Proof.
  split.
  - apply (proj1 (proj2 (proj2 (proj2 (calculateScore_range reference))))
             school1 user1 120).
    reflexivity.
  - apply (proj2 (proj2 (proj2 (proj2 (calculateScore_range reference))))
             school1 user1).
    exact documented_shapes_example1.
Defined.

(** ** The recommendation list *)

(** Five schools that, for [user1], score 90, 60, 30, 20 and 10. *)
Module Ranking.

Definition school90 : value :=
  Object [("classes", Str "10"); ("location", Str "Delhi");
          ("type", Str "Public"); ("distence", Number (num 5))].

Definition school60 : value :=
  Object [("location", Str "New Delhi"); ("type", Str "PUBLIC");
          ("distence", Number (num 10))].

Definition school30 : value :=
  Object [("classes", Array [Str "9"; Str "10"])].

Definition school20 : value := Object [("fee", Number (num 0))].

Definition school10 : value :=
  Object [("midday", Bool true); ("girlSupport", Bool true)].

End Ranking.

(** C3.  Given the schools and a user profile for which every score is
    computed, the pipeline returns exactly the schools whose score is at
    least 30, each with its score, sorted by descending score.  In
    particular, for five schools that score 90, 60, 30, 20 and 10, in
    whatever order the database lists them, the result is the three
    schools that score 90, 60 and 30, in that order. *)
Theorem recommend_filters_and_sorts :
  forall rt : Runtime,
    (forall (schools : list value) (user : value) (score_of : value -> Z),
        (forall s, In s schools ->
                   calculateScore s user = Normal (score_of s)) ->
        exists out,
          recommend schools user = Json out
          /\ Permutation out
               (map (fun s => {| school := s; score := score_of s |})
                    (filter (fun s => (score_of s >=? 30)%Z) schools))
          /\ StronglySorted descending out)
    /\ (forall (user s1 s2 s3 s4 s5 : value) (schools : list value),
           calculateScore s1 user = Normal 90 ->
           calculateScore s2 user = Normal 60 ->
           calculateScore s3 user = Normal 30 ->
           calculateScore s4 user = Normal 20 ->
           calculateScore s5 user = Normal 10 ->
           Permutation schools [s1; s2; s3; s4; s5] ->
           recommend schools user
           = Json [ {| school := s1; score := 90 |};
                    {| school := s2; score := 60 |};
                    {| school := s3; score := 30 |} ]).
Proof.
  intros rt. split.
  - intros schools user score_of H.
    destruct (recommendations_spec schools user score_of H)
      as [out [Hout [Hperm Hsorted]]].
    exists out. unfold recommend. rewrite Hout. auto.
  - intros user s1 s2 s3 s4 s5 schools H1 H2 H3 H4 H5 P.
    set (score_of := fun s => match calculateScore s user with
                              | Normal n => n
                              | TypeError => 0
                              end).
    assert (Hall : forall s, In s schools ->
                             calculateScore s user = Normal (score_of s)).
    { intros s Hs. apply (Permutation_in _ P) in Hs. unfold score_of.
      simpl in Hs.
      destruct Hs as [<-|[<-|[<-|[<-|[<-|[]]]]]];
        [rewrite H1 | rewrite H2 | rewrite H3 | rewrite H4 | rewrite H5];
        reflexivity. }
    destruct (recommendations_spec schools user score_of Hall)
      as [out [Hout [Hperm Hsorted]]].
    unfold recommend. rewrite Hout. f_equal.
    assert (E : map (fun s => {| school := s; score := score_of s |})
                  (filter (fun s => (score_of s >=? 30)%Z)
                          [s1; s2; s3; s4; s5])
                = [ {| school := s1; score := 90 |};
                    {| school := s2; score := 60 |};
                    {| school := s3; score := 30 |} ]).
    { unfold score_of. simpl. rewrite H1, H2, H3, H4, H5. simpl.
      rewrite H1, H2, H3. reflexivity. }
    symmetry.
    apply (sorted_arrangement_unique scored score).
    + repeat constructor; simpl; lia.
    + exact Hsorted.
    + rewrite <- E. apply Permutation_sym.
      eapply perm_trans; [exact Hperm|].
      apply Permutation_map, filter_Permutation. exact P.
    + intros a b Ha Hb. simpl in Ha, Hb.
      destruct Ha as [<-|[<-|[<-|[]]]]; destruct Hb as [<-|[<-|[<-|[]]]];
        simpl; intros K; first [reflexivity | discriminate K].
Qed.

Lemma recommend_filters_and_sorts_witness :
  @recommend reference
    [Ranking.school20; Ranking.school90; Ranking.school10;
     Ranking.school30; Ranking.school60] user1
  = Json [ {| school := Ranking.school90; score := 90 |};
           {| school := Ranking.school60; score := 60 |};
           {| school := Ranking.school30; score := 30 |} ].
Proof.
  apply (proj2 (recommend_filters_and_sorts reference) user1
           Ranking.school90 Ranking.school60 Ranking.school30
           Ranking.school20 Ranking.school10).
  - reflexivity.
  - reflexivity.
  - reflexivity.
  - reflexivity.
  - reflexivity.
  - apply perm_trans with
      [Ranking.school90; Ranking.school20; Ranking.school10;
       Ranking.school30; Ranking.school60]; [apply perm_swap|].
    apply perm_skip.
    apply perm_trans with
      [Ranking.school20; Ranking.school30; Ranking.school10;
       Ranking.school60]; [apply perm_skip, perm_swap|].
    apply perm_trans with
      [Ranking.school20; Ranking.school30; Ranking.school60;
       Ranking.school10]; [do 2 apply perm_skip; apply perm_swap|].
    apply perm_trans with
      [Ranking.school30; Ranking.school20; Ranking.school60;
       Ranking.school10]; [apply perm_swap|].
    apply perm_trans with
      [Ranking.school30; Ranking.school60; Ranking.school20;
       Ranking.school10]; [apply perm_skip, perm_swap|].
    apply perm_trans with
      [Ranking.school60; Ranking.school30; Ranking.school20;
       Ranking.school10]; [apply perm_swap|].
    apply Permutation_refl.
Defined.

(** ** Full and empty matches *)

Lemma class_match_example1 {rt : Runtime} :
  NumberToString (num 10) = "10" ->
  class_match school1 user1 = Normal true.
Proof. intros H. unfold class_match. simpl. rewrite H. reflexivity. Qed.

Lemma class_match_example2 {rt : Runtime} :
  NumberToString (num 10) = "10" ->
  class_match school2 user2 = Normal false.
Proof. intros H. unfold class_match. simpl. rewrite H. reflexivity. Qed.

(** C4.  When the conditions of all seven criteria hold, the score is
    120.  In particular the first example of the specification scores
    120: the only thing it asks of the engine is that the number 10
    prints as ["10"]. *)
Theorem all_criteria_score_120 :
  forall rt : Runtime,
    (forall school user : value,
        (forall c, condition c school user = Normal true) ->
        calculateScore school user = Normal 120)
    /\ (NumberToString (num 10) = "10" ->
        (forall c, condition c school1 user1 = Normal true)
        /\ calculateScore school1 user1 = Normal 120).
Proof.
  intros rt.
  assert (General : forall school user : value,
             (forall c, condition c school user = Normal true) ->
             calculateScore school user = Normal 120).
  { intros school user H.
    rewrite (score_of_conditions school user (fun _ => true) H).
    reflexivity. }
  split; [exact General|].
  intros H10.
  assert (Hall : forall c, condition c school1 user1 = Normal true).
  { intros []; simpl; try reflexivity. apply class_match_example1, H10. }
  split; [exact Hall | apply General, Hall].
Qed.

Lemma all_criteria_score_120_witness :
  (forall c, @condition reference c school1 user1 = Normal true)
  /\ @calculateScore reference school1 user1 = Normal 120.
Proof.
  split.
  - apply (proj2 (all_criteria_score_120 reference)). reflexivity.
  - apply (proj1 (all_criteria_score_120 reference)).
    intros []; reflexivity.
Defined.

(** C5.  When the condition of no criterion holds, the score is 0.  In
    particular the second example of the specification scores 0, again
    as soon as the number 10 prints as ["10"]. *)
Theorem no_criterion_score_0 :
  forall rt : Runtime,
    (forall school user : value,
        (forall c, condition c school user = Normal false) ->
        calculateScore school user = Normal 0)
    /\ (NumberToString (num 10) = "10" ->
        (forall c, condition c school2 user2 = Normal false)
        /\ calculateScore school2 user2 = Normal 0).
Proof.
  intros rt.
  assert (General : forall school user : value,
             (forall c, condition c school user = Normal false) ->
             calculateScore school user = Normal 0).
  { intros school user H.
    rewrite (score_of_conditions school user (fun _ => false) H).
    reflexivity. }
  split; [exact General|].
  intros H10.
  assert (Hall : forall c, condition c school2 user2 = Normal false).
  { intros []; simpl; try reflexivity. apply class_match_example2, H10. }
  split; [exact Hall | apply General, Hall].
Qed.

Lemma no_criterion_score_0_witness :
  (forall c, @condition reference c school2 user2 = Normal false)
  /\ @calculateScore reference school2 user2 = Normal 0.
Proof.
  split.
  - apply (proj2 (no_criterion_score_0 reference)). reflexivity.
  - apply (proj1 (no_criterion_score_0 reference)).
    intros []; reflexivity.
Defined.

(** ** The fee criterion *)

(** C6.  The fee criterion adds exactly 20 points when the school's fee
    is a number and the bound of the user's category holds (a fee equal
    to 0 for ["free"], at most 500 for ["low"], at most 1500 for
    ["medium"]), and adds nothing otherwise: not for another or a missing
    category, and not for a fee that is no number.  In particular the
    school [{fee: 500}] scores exactly 20 for the user [{fee: "low"}]. *)
Theorem fee_criterion :
  forall rt : Runtime,
    (forall (sp up : list (string * value)) (score : Z),
        spec_fee_fit (field "fee" sp) (field "fee" up) ->
        award (fee_fit (Object sp) (Object up)) (weight FeeFit) score
        = Normal (score + 20))
    /\ (forall (sp up : list (string * value)) (score : Z),
           ~ spec_fee_fit (field "fee" sp) (field "fee" up) ->
           award (fee_fit (Object sp) (Object up)) (weight FeeFit) score
           = Normal score)
    /\ (forall (sp up : list (string * value)) (score : Z),
           (forall n, field "fee" sp <> Number n) ->
           award (fee_fit (Object sp) (Object up)) (weight FeeFit) score
           = Normal score)
    /\ (forall (sp up : list (string * value)) (score : Z),
           field "fee" up <> Str "free" ->
           field "fee" up <> Str "low" ->
           field "fee" up <> Str "medium" ->
           award (fee_fit (Object sp) (Object up)) (weight FeeFit) score
           = Normal score)
    /\ calculateScore school3 user3 = Normal 20.
Proof.
  intros rt.
  assert (Unfit : forall (sp up : list (string * value)) (score : Z),
             ~ spec_fee_fit (field "fee" sp) (field "fee" up) ->
             award (fee_fit (Object sp) (Object up)) (weight FeeFit) score
             = Normal score).
  { intros sp up score H. unfold award.
    destruct (fee_fit_total sp up) as [[|] Hb].
    - exfalso. apply H. apply fee_fit_spec. exact Hb.
    - rewrite Hb. reflexivity. }
  split; [|split; [|split; [|split]]].
  - intros sp up score H. apply fee_fit_spec in H.
    unfold award. rewrite H. reflexivity.
  - exact Unfit.
  - intros sp up score H. apply Unfit.
    intros [n [Hn _]]. exact (H n Hn).
  - intros sp up score Hf Hl Hm. apply Unfit.
    intros [n [_ [[H _] | [[H _] | [H _]]]]]; contradiction.
  - reflexivity.
Qed.

Lemma fee_criterion_witness :
  award (@fee_fit reference school3 user3) (weight FeeFit) 0 = Normal 20
  /\ award (@fee_fit reference school3 (Object [])) (weight FeeFit) 0
     = Normal 0.
Proof.
  split.
  - apply (proj1 (fee_criterion reference)
             [("fee", Number (num 500))] [("fee", Str "low")] 0).
    exists (num 500). split; [reflexivity|].
    right. left. split; reflexivity.
  - apply (proj1 (proj2 (fee_criterion reference))
             [("fee", Number (num 500))] [] 0).
    intros [n [_ [[H _] | [[H _] | [H _]]]]]; discriminate H.
Defined.

(** ** Scalar and one-element class lists *)

(** C7 (amended: the class value has to be present).  A single class
    value and the one-element list of that value are treated alike: for
    every user profile and every scalar class value [c] that is present
    (neither [null] nor [undefined], and not itself a list), two schools
    that differ only in having [classes = c] and [classes = [c]] receive
    the same result.  Both sides are compared as strings, so that
    [classes] equal to ["10"], or to [["10"]], matches the [class] 10 of
    a user as soon as the number 10 prints as ["10"]. *)
Theorem class_scalar_as_singleton :
  forall rt : Runtime,
    (forall (sp sp' : list (string * value)) (user c : value),
        single_class_value c ->
        field "classes" sp = c ->
        field "classes" sp' = Array [c] ->
        (forall k, k <> "classes" -> field k sp' = field k sp) ->
        calculateScore (Object sp') user = calculateScore (Object sp) user)
    /\ (NumberToString (num 10) = "10" ->
        forall sp up : list (string * value),
          field "class" up = Number (num 10) ->
          field "classes" sp = Str "10"
          \/ field "classes" sp = Array [Str "10"] ->
          class_match (Object sp) (Object up) = Normal true).
Proof.
  intros rt. split.
  - intros sp sp' user c [HU [HN HA]] Hc Hc' Hother.
    assert (Hclass : class_match (Object sp') user
                     = class_match (Object sp) user).
    { unfold class_match. rewrite !Get_Object. cbn [bind].
      rewrite Hc, Hc'. cbn [StrictEquals negb andb isArray mapM].
      remember (ToString c) as tc eqn:E. clear E.
      destruct c; try contradiction; try discriminate HA;
        cbn [StrictEquals negb andb isArray];
        destruct tc as [str|]; cbn [bind]; try reflexivity;
        destruct (Get user "class") as [cu|]; cbn [bind];
        try reflexivity;
        destruct (ToString cu) as [key|]; cbn [bind existsb];
        try reflexivity;
        rewrite orb_false_r; reflexivity. }
    unfold calculateScore. rewrite Hclass.
    unfold location_match, type_match, distance_fit, fee_fit,
      midday_match, girl_match. simpl.
    rewrite (Hother "location"), (Hother "type"), (Hother "distence"),
      (Hother "fee"), (Hother "midday"), (Hother "girlSupport")
      by discriminate.
    reflexivity.
  - intros H10 sp up Hu [Hs|Hs]; unfold class_match; simpl;
      rewrite Hs, Hu; simpl; rewrite H10; reflexivity.
Qed.

Lemma class_scalar_as_singleton_witness :
  @calculateScore reference
     (Object [("classes", Array [Str "10"]); ("fee", Number (num 0))]) user1
  = @calculateScore reference
      (Object [("classes", Str "10"); ("fee", Number (num 0))]) user1
  /\ @class_match reference (Object [("classes", Array [Str "10"])]) user1
     = Normal true.
Proof.
  split.
  - apply (proj1 (class_scalar_as_singleton reference)
             [("classes", Str "10"); ("fee", Number (num 0))]
             [("classes", Array [Str "10"]); ("fee", Number (num 0))]
             user1 (Str "10")).
    + repeat split; discriminate || reflexivity.
    + reflexivity.
    + reflexivity.
    + intros k Hk. unfold field. cbn [own].
      destruct ("classes" =? k) eqn:E; [|reflexivity].
      apply String.eqb_eq in E. congruence.
  - apply (proj2 (class_scalar_as_singleton reference) eq_refl
             [("classes", Array [Str "10"])]
             [("class", Number (num 10)); ("location", Str "delhi");
              ("type", Str "public"); ("maxDistance", Number (num 10));
              ("fee", Str "free"); ("middayMeal", Bool true);
              ("girlChild", Bool true)]).
    + reflexivity.
    + right. reflexivity.
Defined.

(** C7 as it was stated, for every class value, fails at [c = null]: the
    guard of the source skips [classes: null], which scores 0, while
    [classes: [null]] holds the label ["null"] and scores 30 for a user
    whose class is ["null"]. *)
Lemma class_scalar_as_singleton_fails_at_null :
  @calculateScore reference (Object [("classes", Null)])
     (Object [("class", Str "null")]) = Normal 0
  /\ @calculateScore reference (Object [("classes", Array [Null])])
       (Object [("class", Str "null")]) = Normal 30
  /\ ~ (forall (rt : Runtime) (sp sp' : list (string * value))
               (user c : value),
          field "classes" sp = c ->
          field "classes" sp' = Array [c] ->
          (forall k, k <> "classes" -> field k sp' = field k sp) ->
          calculateScore (Object sp') user
          = calculateScore (Object sp) user).
Proof.
  split; [reflexivity|]. split; [reflexivity|].
  intros H.
  specialize (H reference [("classes", Null)] [("classes", Array [Null])]
                (Object [("class", Str "null")]) Null eq_refl eq_refl).
  assert (K : @calculateScore reference (Object [("classes", Array [Null])])
                (Object [("class", Str "null")])
              = @calculateScore reference (Object [("classes", Null)])
                  (Object [("class", Str "null")])).
  { apply H. intros k Hk. unfold field. cbn [own].
    destruct ("classes" =? k) eqn:E; [|reflexivity].
    apply String.eqb_eq in E. congruence. }
  vm_compute in K. discriminate K.
Qed.

(** The two conditions of C7 on the class value cannot be dropped:
    [classes: null] is skipped while [classes: [null]] holds the string
    ["null"], and a list inside a list prints as one string. *)
Lemma class_null_is_not_a_singleton {rt : Runtime} :
  calculateScore (Object [("classes", Null)])
                 (Object [("class", Str "null")]) = Normal 0
  /\ calculateScore (Object [("classes", Array [Null])])
                    (Object [("class", Str "null")]) = Normal 30.
Proof. split; reflexivity. Qed.

Lemma class_list_is_not_a_singleton {rt : Runtime} :
  calculateScore (Object [("classes", Array [Str "8"; Str "9"])])
                 (Object [("class", Str "8")]) = Normal 30
  /\ calculateScore
       (Object [("classes", Array [Array [Str "8"; Str "9"]])])
       (Object [("class", Str "8")]) = Normal 0.
Proof. split; reflexivity. Qed.

(** ** Monotonicity *)

(** C8.  Take two inputs on which every condition evaluates.  If one
    criterion is not satisfied on the first and is satisfied on the
    second, and every other criterion has the same truth value on both,
    then [calculateScore] returns on both and the second score is not
    lower than the first: it is higher by the weight of that
    criterion. *)
Theorem score_monotone_per_criterion :
  forall (rt : Runtime) (school user school' user' : value)
         (j : criterion),
    condition j school user = Normal false ->
    condition j school' user' = Normal true ->
    (forall c, c <> j ->
               exists b, condition c school user = Normal b
                         /\ condition c school' user' = Normal b) ->
    exists n n' : Z,
      calculateScore school user = Normal n
      /\ calculateScore school' user' = Normal n'
      /\ n <= n'
      /\ n' = n + weight j.
Proof.
  intros rt school user school' user' j Hj Hj' Hother.
  assert (criterion_eq_dec : forall c, c = j \/ c <> j).
  { intros c. destruct c, j; (left; reflexivity) || (right; discriminate). }
  assert (T : forall c, exists b, condition c school user = Normal b).
  { intros c. destruct (criterion_eq_dec c) as [->|Hc].
    - exists false. exact Hj.
    - destruct (Hother c Hc) as [b [Hb _]]. exists b. exact Hb. }
  assert (T' : forall c, exists b, condition c school' user' = Normal b).
  { intros c. destruct (criterion_eq_dec c) as [->|Hc].
    - exists true. exact Hj'.
    - destruct (Hother c Hc) as [b [_ Hb]]. exists b. exact Hb. }
  destruct (conditions_assignment school user T) as [sat Hsat].
  destruct (conditions_assignment school' user' T') as [sat' Hsat'].
  assert (E : earned sat' = earned sat + weight j).
  { apply earned_one_more.
    - pose proof (Hsat j) as K. rewrite Hj in K. congruence.
    - pose proof (Hsat' j) as K. rewrite Hj' in K. congruence.
    - intros c Hc. destruct (Hother c Hc) as [b [Hb Hb']].
      pose proof (Hsat c) as K. pose proof (Hsat' c) as K'.
      rewrite Hb in K. rewrite Hb' in K'. congruence. }
  exists (earned sat), (earned sat').
  split; [apply score_of_conditions; exact Hsat|].
  split; [apply score_of_conditions; exact Hsat'|].
  split; [|exact E].
  rewrite E. destruct j; simpl; lia.
Qed.

Lemma score_monotone_per_criterion_witness :
  exists n n' : Z,
    @calculateScore reference school3 (Object []) = Normal n
    /\ @calculateScore reference school3 user3 = Normal n'
    /\ n <= n'
    /\ n' = n + weight FeeFit.
Proof.
  apply (score_monotone_per_criterion reference
           school3 (Object []) school3 user3 FeeFit).
  - reflexivity.
  - reflexivity.
  - intros c Hc. exists false.
    destruct c; (split; reflexivity) || (exfalso; apply Hc; reflexivity).
Defined.

(** ** Empty strings *)

(** C9.  An empty string counts as a missing field in the location and
    type criteria: a user whose [location] (or [type]) is [""] gets no
    point from that criterion, whatever the school record holds, and so
    does every user when it is the school's field that is [""].  The
    test is one of truthiness: the comparison itself, which is not
    reached, would succeed, since the empty string occurs in every
    string and equals the school's type when that is empty too. *)
Theorem empty_string_is_absent :
  forall (sp up : list (string * value)) (score : Z),
    (field "location" up = Str "" ->
     location_match (Object sp) (Object up) = Normal false
     /\ award (location_match (Object sp) (Object up))
              (weight LocationMatch) score = Normal score)
    /\ (field "type" up = Str "" ->
        type_match (Object sp) (Object up) = Normal false
        /\ award (type_match (Object sp) (Object up))
                 (weight TypeMatch) score = Normal score)
    /\ (field "location" sp = Str "" ->
        location_match (Object sp) (Object up) = Normal false)
    /\ (field "type" sp = Str "" ->
        type_match (Object sp) (Object up) = Normal false)
    /\ (forall s : string, includes (lower s) (lower "") = true)
    /\ (lower "" =? lower "") = true
    /\ ToBoolean (Str "") = false
    /\ StrictEquals (Str "") Undefined = false.
Proof.
  intros sp up score.
  split; [|split; [|split; [|split; [|split; [|repeat split]]]]].
  - intros H.
    assert (E : location_match (Object sp) (Object up) = Normal false)
      by (apply location_match_user_falsy; rewrite H; reflexivity).
    split; [exact E | unfold award; rewrite E; reflexivity].
  - intros H.
    assert (E : type_match (Object sp) (Object up) = Normal false)
      by (apply type_match_user_falsy; rewrite H; reflexivity).
    split; [exact E | unfold award; rewrite E; reflexivity].
  - intros H. apply location_match_school_falsy. rewrite H. reflexivity.
  - intros H. apply type_match_school_falsy. rewrite H. reflexivity.
  - intros s. apply includes_empty.
Qed.

Lemma empty_string_is_absent_witness :
  location_match school1
     (Object [("location", Str ""); ("type", Str "")]) = Normal false
  /\ type_match school1
       (Object [("location", Str ""); ("type", Str "")]) = Normal false.
Proof.
  split.
  - apply (proj1 (empty_string_is_absent
             [("classes", Str "10"); ("location", Str "Delhi");
              ("type", Str "Public"); ("distence", Number (num 5));
              ("fee", Number (num 0)); ("midday", Bool true);
              ("girlSupport", Bool true)]
             [("location", Str ""); ("type", Str "")] 0)).
    reflexivity.
  - apply (proj1 (proj2 (empty_string_is_absent
             [("classes", Str "10"); ("location", Str "Delhi");
              ("type", Str "Public"); ("distence", Number (num 5));
              ("fee", Number (num 0)); ("midday", Bool true);
              ("girlSupport", Bool true)]
             [("location", Str ""); ("type", Str "")] 0))).
    reflexivity.
Defined.

(** ** Nested fee categories *)

(** C10.  The fee categories are nested upper bounds.  For a school with
    a numeric fee and three users who ask for ["free"], ["low"] and
    ["medium"]: when the fee criterion holds for ["free"] it holds for
    ["low"] and for ["medium"], when it holds for ["low"] it holds for
    ["medium"], and a fee equal to 0 satisfies all three. *)
Theorem fee_categories_nested :
  forall (rt : Runtime) (sp free low medium : list (string * value))
         (n : number),
    field "fee" sp = Number n ->
    field "fee" free = Str "free" ->
    field "fee" low = Str "low" ->
    field "fee" medium = Str "medium" ->
    (fee_fit (Object sp) (Object free) = Normal true ->
     fee_fit (Object sp) (Object low) = Normal true
     /\ fee_fit (Object sp) (Object medium) = Normal true)
    /\ (fee_fit (Object sp) (Object low) = Normal true ->
        fee_fit (Object sp) (Object medium) = Normal true)
    /\ (number_eqb n (num 0) = true ->
        fee_fit (Object sp) (Object free) = Normal true
        /\ fee_fit (Object sp) (Object low) = Normal true
        /\ fee_fit (Object sp) (Object medium) = Normal true).
Proof.
  intros rt sp free low medium n Hn Hf Hl Hm.
  rewrite !fee_fit_Object, Hn, Hf, Hl, Hm. simpl StrictEquals.
  cbn [andb orb]. rewrite !orb_false_r.
  assert (F : forall b, Normal b = Normal true -> b = true)
    by (intros b H; injection H as ->; reflexivity).
  split; [|split].
  - intros H. apply F in H. apply zero_le_500 in H as H5.
    apply le_500_le_1500 in H5 as H15. rewrite H5, H15. auto.
  - intros H. apply F in H. apply le_500_le_1500 in H.
    rewrite H. reflexivity.
  - intros H. apply zero_le_500 in H as H5.
    apply le_500_le_1500 in H5 as H15. rewrite H, H5, H15. auto.
Qed.

Lemma fee_categories_nested_witness :
  @fee_fit reference (Object [("fee", Number (num 0))])
     (Object [("fee", Str "free")]) = Normal true
  /\ @fee_fit reference (Object [("fee", Number (num 0))])
       (Object [("fee", Str "low")]) = Normal true
  /\ @fee_fit reference (Object [("fee", Number (num 0))])
       (Object [("fee", Str "medium")]) = Normal true.
Proof.
  apply (proj2 (proj2 (fee_categories_nested reference
           [("fee", Number (num 0))] [("fee", Str "free")]
           [("fee", Str "low")] [("fee", Str "medium")] (num 0)
           eq_refl eq_refl eq_refl eq_refl))).
  reflexivity.
Defined.

(** * Further properties of the scoring code *)

(** X2.  The function throws exactly when the condition of one of the seven
    criteria throws, and otherwise returns. *)
Theorem calculateScore_throws_iff :
  forall (rt : Runtime) (school user : value),
    (calculateScore school user = TypeError
     <-> exists c, condition c school user = TypeError)
    /\ ((exists n, calculateScore school user = Normal n)
        <-> forall c, exists b, condition c school user = Normal b).
Proof.
  intros rt school user. split; [apply score_throws|]. split.
  - intros [n Hn] c. apply conditions_of_score in Hn.
    destruct Hn as [sat [Hsat _]]. exists (sat c). apply Hsat.
  - intros H. destruct (conditions_assignment school user H) as [sat Hsat].
    exists (earned sat). apply score_of_conditions. exact Hsat.
Qed.

(** X3.  On school records and user profiles of the documented shapes (text
    fields that are strings or missing, class labels and distance bound
    without objects inside) the function returns. *)
Theorem calculateScore_total_on_documented_shapes :
  forall (rt : Runtime) (school user : value),
    documented_shapes school user ->
    exists n, calculateScore school user = Normal n.
Proof.
  intros rt school user H.
  destruct (conditions_assignment school user (conditions_total _ _ H))
    as [sat Hsat].
  exists (earned sat). apply score_of_conditions. exact Hsat.
Qed.

Lemma calculateScore_total_on_documented_shapes_witness :
  exists n, @calculateScore reference school1 user1 = Normal n.
Proof.
  apply (calculateScore_total_on_documented_shapes reference school1 user1).
  exact documented_shapes_example1.
Defined.

(** X4.  The extreme scores are reached only in the extreme cases: 120 when
    all seven conditions hold, 0 when none does. *)
Theorem extreme_scores :
  forall (rt : Runtime) (school user : value),
    (calculateScore school user = Normal 120
     <-> forall c, condition c school user = Normal true)
    /\ (calculateScore school user = Normal 0
        <-> forall c, condition c school user = Normal false).
Proof.
  intros rt school user. split; split.
  - intros H. apply conditions_of_score in H.
    destruct H as [sat [Hsat E]]. intros c. rewrite (Hsat c). f_equal.
    revert E. unfold earned, criteria. cbn [fold_right weight].
    destruct c;
      destruct (sat ClassMatch), (sat LocationMatch), (sat TypeMatch),
        (sat DistanceFit), (sat FeeFit), (sat MiddayMeal), (sat GirlChild);
      intros E; first [reflexivity | discriminate E].
  - intros H. rewrite (score_of_conditions school user (fun _ => true) H).
    reflexivity.
  - intros H. apply conditions_of_score in H.
    destruct H as [sat [Hsat E]]. intros c. rewrite (Hsat c). f_equal.
    revert E. unfold earned, criteria. cbn [fold_right weight].
    destruct c;
      destruct (sat ClassMatch), (sat LocationMatch), (sat TypeMatch),
        (sat DistanceFit), (sat FeeFit), (sat MiddayMeal), (sat GirlChild);
      intros E; first [reflexivity | discriminate E].
  - intros H. rewrite (score_of_conditions school user (fun _ => false) H).
    reflexivity.
Qed.

(** X5.  The score depends on the two records only through the values of
    their fields: the order in which the properties are listed, and a
    property left out as against one set to [undefined], make no
    difference. *)
Theorem calculateScore_reads_fields_only :
  forall (rt : Runtime) (sp sp' up up' : list (string * value)),
    (forall k, field k sp' = field k sp) ->
    (forall k, field k up' = field k up) ->
    calculateScore (Object sp') (Object up')
    = calculateScore (Object sp) (Object up).
Proof.
  intros rt sp sp' up up' Hs Hu.
  unfold calculateScore, class_match, location_match, type_match,
    distance_fit, fee_fit, midday_match, girl_match.
  rewrite !Get_Object. rewrite !Hs, !Hu. reflexivity.
Qed.

Lemma calculateScore_reads_fields_only_witness :
  @calculateScore reference
     (Object [("fee", Number (num 500)); ("classes", Undefined)])
     (Object [("fee", Str "low")])
  = @calculateScore reference school3 user3.
Proof.
  apply (calculateScore_reads_fields_only reference
           [("fee", Number (num 500))]
           [("fee", Number (num 500)); ("classes", Undefined)]
           [("fee", Str "low")] [("fee", Str "low")]).
  - intros k. unfold field. cbn [own].
    destruct ("fee" =? k); [reflexivity|].
    destruct ("classes" =? k); reflexivity.
  - intros k. reflexivity.
Defined.

(** X6.  The rows of the criteria table on fields of the expected types: two
    strings match by location when both are non-empty and the school's,
    lowercased, includes the user's; by type when both are non-empty and
    equal once lowercased; a numeric distance fits a numeric bound when
    it is at most the bound; a scheme counts when the user's flag is
    truthy and the school's is [true]. *)
Theorem criteria_on_typed_fields :
  forall (rt : Runtime) (sp up : list (string * value)),
    (forall a b : string,
        field "location" sp = Str a -> field "location" up = Str b ->
        location_match (Object sp) (Object up)
        = Normal (negb (a =? "") && negb (b =? "")
                  && includes (lower a) (lower b)))
    /\ (forall a b : string,
           field "type" sp = Str a -> field "type" up = Str b ->
           type_match (Object sp) (Object up)
           = Normal (negb (a =? "") && negb (b =? "")
                     && (lower a =? lower b)))
    /\ (forall d m : number,
           field "distence" sp = Number d ->
           field "maxDistance" up = Number m ->
           distance_fit (Object sp) (Object up) = Normal (number_leb d m))
    /\ midday_match (Object sp) (Object up)
       = Normal (ToBoolean (field "middayMeal" up)
                 && StrictEquals (field "midday" sp) (Bool true))
    /\ girl_match (Object sp) (Object up)
       = Normal (ToBoolean (field "girlChild" up)
                 && StrictEquals (field "girlSupport" sp) (Bool true)).
Proof.
  intros rt sp up. split; [|split; [|split; [|split]]].
  - intros a b Ha Hb. unfold location_match. rewrite !Get_Object, Ha, Hb.
    simpl. destruct (a =? ""), (b =? ""); reflexivity.
  - intros a b Ha Hb. unfold type_match. rewrite !Get_Object, Ha, Hb.
    simpl. destruct (a =? ""), (b =? ""); reflexivity.
  - intros d m Hd Hm. rewrite (distance_fit_number sp up d Hd), Hm.
    reflexivity.
  - apply midday_match_Object.
  - apply girl_match_Object.
Qed.

Lemma criteria_on_typed_fields_witness :
  location_match school1 user1 = Normal true
  /\ type_match school1 user1 = Normal true
  /\ @distance_fit reference school1 user1 = Normal true.
Proof.
  pose proof (criteria_on_typed_fields reference
    [("classes", Str "10"); ("location", Str "Delhi");
     ("type", Str "Public"); ("distence", Number (num 5));
     ("fee", Number (num 0)); ("midday", Bool true);
     ("girlSupport", Bool true)]
    [("class", Number (num 10)); ("location", Str "delhi");
     ("type", Str "public"); ("maxDistance", Number (num 10));
     ("fee", Str "free"); ("middayMeal", Bool true);
     ("girlChild", Bool true)]) as [HL [HT [HD _]]].
  split; [|split].
  - exact (HL "Delhi" "delhi" eq_refl eq_refl).
  - exact (HT "Public" "public" eq_refl eq_refl).
  - exact (HD (num 5) (num 10) eq_refl eq_refl).
Defined.

(** X7.  A score that cannot be computed fails the whole request: as soon as
    [calculateScore] throws on one school of the list, the handler
    answers with the status 500. *)
Theorem recommend_fails_when_a_score_throws :
  forall (rt : Runtime) (schools : list value) (user s : value),
    In s schools ->
    calculateScore s user = TypeError ->
    recommend schools user = Status500 "Recommendation failed".
Proof.
  intros rt schools user s Hin Hs. unfold recommend, recommendations.
  assert (E : mapM (with_score user) schools = TypeError).
  { induction schools as [|x t IH]; [contradiction Hin|]. simpl.
    destruct (with_score user x) as [r|] eqn:Hx; [|reflexivity]. simpl.
    destruct Hin as [->|Hin].
    - unfold with_score in Hx. rewrite Hs in Hx. discriminate Hx.
    - rewrite (IH Hin). reflexivity. }
  rewrite E. reflexivity.
Qed.

Lemma recommend_fails_when_a_score_throws_witness :
  @recommend reference
     [Object [("location", Str "Delhi")]; school_numeric_location]
     user_with_location
  = Status500 "Recommendation failed".
Proof.
  apply (recommend_fails_when_a_score_throws reference
           [Object [("location", Str "Delhi")]; school_numeric_location]
           user_with_location school_numeric_location).
  - right. left. reflexivity.
  - reflexivity.
Defined.

(** * The rest of the service *)

(** ** Objects of the answer *)

Lemma own_filter_other (k k' : string) (l : list (string * value)) :
  k' <> k ->
  own k (filter (fun kv => negb (fst kv =? k')) l) = own k l.
Proof.
  intros Hk. induction l as [|[k0 v0] t IH]; simpl.
  - reflexivity.
  - destruct (k0 =? k') eqn:E0; simpl.
    + apply String.eqb_eq in E0. subst k0.
      destruct (k' =? k) eqn:E; [|exact IH].
      apply String.eqb_eq in E. contradiction.
    + rewrite IH. reflexivity.
Qed.

(** Listing the properties once each does not change what is read. *)
Lemma own_entries (k : string) (props : list (string * value)) :
  own k (entries props) = own k props.
Proof.
  induction props as [|[k0 v0] t IH]; simpl.
  - reflexivity.
  - destruct (k0 =? k) eqn:E; [reflexivity|].
    rewrite own_filter_other; [exact IH|].
    apply String.eqb_neq. exact E.
Qed.

Lemma own_set_prop_same (k : string) (v : value)
      (props : list (string * value)) :
  own k (set_prop k v props) = Some v.
Proof.
  induction props as [|[k0 v0] t IH]; simpl.
  - rewrite String.eqb_refl. reflexivity.
  - destruct (k0 =? k) eqn:E; simpl.
    + rewrite String.eqb_refl. reflexivity.
    + rewrite E. exact IH.
Qed.

Lemma own_set_prop_other (k k' : string) (v : value)
      (props : list (string * value)) :
  k' <> k -> own k' (set_prop k v props) = own k' props.
Proof.
  intros Hk. induction props as [|[k0 v0] t IH]; simpl.
  - destruct (k =? k') eqn:E; [|reflexivity].
    apply String.eqb_eq in E. congruence.
  - destruct (k0 =? k) eqn:E; simpl.
    + apply String.eqb_eq in E. subst k0.
      destruct (k =? k') eqn:E'; [|reflexivity].
      apply String.eqb_eq in E'. congruence.
    + rewrite IH. reflexivity.
Qed.

Lemma Qle_bool_inject_Z (a b : Z) :
  Qle_bool (inject_Z a) (inject_Z b) = (a <=? b)%Z.
Proof. unfold Qle_bool. simpl. rewrite !Z.mul_1_r. reflexivity. Qed.

(** X8.  The object built for a school of the answer carries the
    computed score under [score], whatever the school record held
    there, and every other property of the record unchanged; the test
    [s.score >= 30] of the filter, read on that object, is the test of
    the computed score. *)
Theorem spread_score_properties :
  forall (rt : Runtime) (s : value) (n : Z),
    Get (spread_score s n) "score" = Normal (Number (num n))
    /\ (forall (props : list (string * value)) (k : string),
           s = Object props -> k <> "score" ->
           Get (spread_score s n) k = Get s k)
    /\ reaches_threshold (spread_score s n) = Normal (n >=? 30)%Z.
Proof.
  intros rt s n.
  assert (Hscore : Get (spread_score s n) "score"
                   = Normal (Number (num n))).
  { unfold spread_score. rewrite Get_Object. unfold field.
    rewrite own_set_prop_same. reflexivity. }
  split; [exact Hscore|]. split.
  - intros props k -> Hk. unfold spread_score. rewrite !Get_Object.
    unfold field. rewrite own_set_prop_other by exact Hk.
    simpl own_enumerable. rewrite own_entries. reflexivity.
  - unfold reaches_threshold. rewrite Hscore. cbn [bind].
    unfold GreaterEq. cbn [ToPrimitive bind ToNumber number_leb num].
    rewrite Qle_bool_inject_Z, Z.geb_leb. reflexivity.
Qed.

Lemma spread_score_properties_witness :
  @Get (spread_score (Object [("name", Str "A"); ("score", Str "old")]) 50)
       "name"
  = Get (Object [("name", Str "A"); ("score", Str "old")]) "name".
Proof.
  apply (proj1 (proj2 (spread_score_properties reference
           (Object [("name", Str "A"); ("score", Str "old")]) 50))
           [("name", Str "A"); ("score", Str "old")] "name").
  - reflexivity.
  - discriminate.
Defined.

(** ** The store *)

(** X9.  Reading the schools never throws, thanks to the [|| {}] that
    stands in for an empty snapshot; and when the snapshot is empty
    ([null], or any falsy value) there are no schools, so that the
    recommendation handler answers with the empty list for every
    request body, including one on which scoring itself would throw. *)
Theorem empty_store_gives_empty_list :
  forall (rt : Runtime) (snapshot : value),
    (exists schools, getSchoolsFromDB snapshot = Normal schools)
    /\ (ToBoolean snapshot = false ->
        getSchoolsFromDB snapshot = Normal []
        /\ forall user, post_recommend snapshot user = Json []).
Proof.
  intros rt snapshot. split.
  - unfold getSchoolsFromDB, or_else.
    destruct (ToBoolean snapshot) eqn:T.
    + destruct snapshot; try discriminate T; eexists; reflexivity.
    + eexists; reflexivity.
  - intros T.
    assert (E : getSchoolsFromDB snapshot = Normal []).
    { unfold getSchoolsFromDB, or_else. rewrite T. reflexivity. }
    split; [exact E|].
    intros user. unfold post_recommend. rewrite E. reflexivity.
Qed.

Lemma empty_store_gives_empty_list_witness :
  getSchoolsFromDB Null = Normal []
  /\ forall user, @post_recommend reference Null user = Json [].
Proof.
  apply (proj2 (empty_store_gives_empty_list reference Null)).
  reflexivity.
Defined.

(** ** Missing arguments and missing fields *)

Ltac in_list := simpl; repeat (first [left; reflexivity | right]).

Lemma Get_defined (o : value) (k : string) :
  defined o -> exists v, Get o k = Normal v.
Proof.
  intros [HU HN]. destruct o; try contradiction; eexists; reflexivity.
Qed.

(** X10.  [calculateScore] throws when the school, or the user, is
    [null] or [undefined], whatever the other argument.  When both are
    there and the school has none of the seven properties the function
    reads (an empty record, or a stray number, string or array in the
    store), the score is 0. *)
Theorem missing_arguments_and_fields :
  forall (rt : Runtime),
    (forall user, calculateScore Null user = TypeError
                  /\ calculateScore Undefined user = TypeError)
    /\ (forall school, calculateScore school Null = TypeError
                       /\ calculateScore school Undefined = TypeError)
    /\ (forall school user,
           defined school -> defined user ->
           (forall k, In k school_fields ->
                      Get school k = Normal Undefined) ->
           calculateScore school user = Normal 0).
Proof.
  intros rt. split; [|split].
  - intros user. split; reflexivity.
  - intros school.
    split; apply score_throws; exists MiddayMeal; reflexivity.
  - intros school user Hs Hu H.
    assert (H1 : Get school "classes" = Normal Undefined)
      by (apply H; in_list).
    assert (H2 : Get school "location" = Normal Undefined)
      by (apply H; in_list).
    assert (H3 : Get school "type" = Normal Undefined)
      by (apply H; in_list).
    assert (H4 : Get school "distence" = Normal Undefined)
      by (apply H; in_list).
    assert (H5 : Get school "fee" = Normal Undefined)
      by (apply H; in_list).
    assert (H6 : Get school "midday" = Normal Undefined)
      by (apply H; in_list).
    assert (H7 : Get school "girlSupport" = Normal Undefined)
      by (apply H; in_list).
    destruct (Get_defined user "middayMeal" Hu) as [m Hm].
    destruct (Get_defined user "girlChild" Hu) as [g Hg].
    unfold calculateScore, award, class_match, location_match, type_match,
      distance_fit, fee_fit, midday_match, girl_match.
    rewrite H1, H2, H3, H4, H5, H6, H7, Hm, Hg. simpl.
    destruct (ToBoolean m), (ToBoolean g); reflexivity.
Qed.

Lemma missing_arguments_and_fields_witness :
  @calculateScore reference (Array [Str "a"]) user1 = Normal 0.
Proof.
  apply (proj2 (proj2 (missing_arguments_and_fields reference))).
  - split; discriminate.
  - split; discriminate.
  - intros k Hk. reflexivity.
Defined.

(** On a profile that leaves a field out, the criterion of that field
    does not hold, whatever the school holds; the class criterion is the
    exception. *)
Section EmptyProfile.

Context {rt : Runtime}.

Variables school user : value.
Hypothesis school_defined : defined school.

Lemma location_match_user_missing :
  Get user "location" = Normal Undefined ->
  location_match school user = Normal false.
Proof.
  intros Hu. destruct (Get_defined school "location" school_defined)
    as [v Hv].
  unfold location_match. rewrite Hu, Hv. simpl.
  destruct (ToBoolean v); reflexivity.
Qed.

Lemma type_match_user_missing :
  Get user "type" = Normal Undefined ->
  type_match school user = Normal false.
Proof.
  intros Hu. destruct (Get_defined school "type" school_defined)
    as [v Hv].
  unfold type_match. rewrite Hu, Hv. simpl.
  destruct (ToBoolean v); reflexivity.
Qed.

Lemma distance_fit_user_missing :
  Get user "maxDistance" = Normal Undefined ->
  distance_fit school user = Normal false.
Proof.
  intros Hu. destruct (Get_defined school "distence" school_defined)
    as [v Hv].
  unfold distance_fit. rewrite Hu, Hv.
  destruct v as [| |b|[|[|]|q]|s|elems|props]; reflexivity.
Qed.

Lemma fee_fit_user_missing :
  Get user "fee" = Normal Undefined ->
  fee_fit school user = Normal false.
Proof.
  intros Hu. destruct (Get_defined school "fee" school_defined)
    as [v Hv].
  unfold fee_fit. rewrite Hu, Hv. simpl.
  destruct (typeof v =? "number"); reflexivity.
Qed.

Lemma midday_match_user_missing :
  Get user "middayMeal" = Normal Undefined ->
  midday_match school user = Normal false.
Proof. intros Hu. unfold midday_match. rewrite Hu. reflexivity. Qed.

Lemma girl_match_user_missing :
  Get user "girlChild" = Normal Undefined ->
  girl_match school user = Normal false.
Proof. intros Hu. unfold girl_match. rewrite Hu. reflexivity. Qed.

End EmptyProfile.

(** X11.  For a profile that gives none of the seven preferences (an
    empty body, for one) only the class criterion can count, and it
    compares the school's class labels with the text ["undefined"]: the
    score is 30 when the criterion holds and 0 otherwise.  So a school
    without [classes] scores 0, and a school whose [classes] is a string
    scores 30 exactly when that string is ["undefined"]. *)
Theorem empty_profile_score :
  forall (rt : Runtime) (school user : value),
    defined school ->
    (forall k, In k user_fields -> Get user k = Normal Undefined) ->
    calculateScore school user
    = (b <- class_match school user ;; Normal (if b then 30 else 0))
    /\ (Get school "classes" = Normal Undefined ->
        calculateScore school user = Normal 0)
    /\ (forall s : string,
           Get school "classes" = Normal (Str s) ->
           calculateScore school user
           = Normal (if s =? "undefined" then 30 else 0)).
Proof.
  intros rt school user Hs H.
  assert (E : calculateScore school user
              = (b <- class_match school user ;;
                 Normal (if b then 30 else 0))).
  { unfold calculateScore, award.
    rewrite (location_match_user_missing school user Hs)
      by (apply H; in_list).
    rewrite (type_match_user_missing school user Hs)
      by (apply H; in_list).
    rewrite (distance_fit_user_missing school user Hs)
      by (apply H; in_list).
    rewrite (fee_fit_user_missing school user Hs)
      by (apply H; in_list).
    rewrite (midday_match_user_missing school user)
      by (apply H; in_list).
    rewrite (girl_match_user_missing school user)
      by (apply H; in_list).
    destruct (class_match school user) as [[|]|]; reflexivity. }
  assert (Hc : Get user "class" = Normal Undefined)
    by (apply H; in_list).
  split; [exact E|]. split.
  - intros Hcl. rewrite E. unfold class_match. rewrite Hcl. reflexivity.
  - intros s Hcl. rewrite E. unfold class_match. rewrite Hcl, Hc. simpl.
    destruct (s =? "undefined"); reflexivity.
Qed.

Lemma empty_profile_score_witness :
  @calculateScore reference
     (Object [("classes", Str "undefined"); ("location", Str "Delhi")])
     (Object [])
  = Normal 30.
Proof.
  refine (proj2 (proj2 (empty_profile_score reference
            (Object [("classes", Str "undefined"); ("location", Str "Delhi")])
            (Object []) _ _)) "undefined" _).
  - split; discriminate.
  - intros k _. reflexivity.
  - reflexivity.
Defined.

(** ** The threshold *)

(** X12.  With the weights and the threshold of the source, a school is
    kept by the filter exactly when its class matches, or at least two
    of the four 20-point criteria (location, type, distance, fee) hold,
    or one of them holds together with both schemes.  The two schemes
    alone, or a single 20-point criterion, do not reach the
    threshold. *)
Theorem threshold_reached_iff :
  forall (rt : Runtime) (school user : value) (sat : criterion -> bool),
    (forall c, condition c school user = Normal (sat c)) ->
    exists n,
      calculateScore school user = Normal n
      /\ ((n >=? 30)%Z = true
          <-> sat ClassMatch = true
              \/ (2 <= twenties sat)%nat
              \/ ((1 <= twenties sat)%nat
                  /\ sat MiddayMeal = true /\ sat GirlChild = true)).
Proof.
  intros rt school user sat H. exists (earned sat).
  split; [apply score_of_conditions; exact H|].
  unfold earned, twenties, criteria. cbn [fold_right weight filter].
  destruct (sat ClassMatch), (sat LocationMatch), (sat TypeMatch),
    (sat DistanceFit), (sat FeeFit), (sat MiddayMeal), (sat GirlChild);
    cbn; split; intros K;
    first [ reflexivity
          | discriminate K
          | left; reflexivity
          | right; left; lia
          | right; right; repeat split; lia || reflexivity
          | exfalso; destruct K as [K | [K | [K1 [K2 K3]]]];
            first [discriminate | lia] ].
Qed.

Lemma threshold_reached_iff_witness :
  exists n,
    @calculateScore reference Ranking.school10 user1 = Normal n
    /\ ((n >=? 30)%Z = true
        <-> false = true
            \/ (2 <= 0)%nat
            \/ ((1 <= 0)%nat /\ true = true /\ true = true)).
Proof.
  apply (threshold_reached_iff reference Ranking.school10 user1
           (fun c => match c with
                     | MiddayMeal | GirlChild => true
                     | _ => false
                     end)).
  intros []; reflexivity.
Defined.

(** ** The answer of the recommendation handler *)

Lemma Forall2_In_right {A B : Type} (R : A -> B -> Prop) (l : list A)
      (l' : list B) (y : B) :
  Forall2 R l l' -> In y l' -> exists x, In x l /\ R x y.
Proof.
  induction 1 as [|x0 y0 l l' Hxy _ IH]; intros Hin.
  - contradiction Hin.
  - destruct Hin as [<-|Hin].
    + exists x0. split; [left; reflexivity | exact Hxy].
    + destruct (IH Hin) as [x [Hx HR]]. exists x. split; [right|]; assumption.
Qed.

Lemma Forall2_In_left {A B : Type} (R : A -> B -> Prop) (l : list A)
      (l' : list B) (x : A) :
  Forall2 R l l' -> In x l -> exists y, In y l' /\ R x y.
Proof.
  induction 1 as [|x0 y0 l l' Hxy _ IH]; intros Hin.
  - contradiction Hin.
  - destruct Hin as [<-|Hin].
    + exists y0. split; [left; reflexivity | exact Hxy].
    + destruct (IH Hin) as [y [Hy HR]]. exists y. split; [right|]; assumption.
Qed.

Lemma filter_length_bound {A : Type} (p : A -> bool) (l : list A) :
  (List.length (filter p l) <= List.length l)%nat.
Proof.
  induction l as [|x t IH]; simpl; [lia|].
  destruct (p x); simpl; lia.
Qed.

Lemma with_score_inv {rt : Runtime} (user s : value) (r : scored) :
  with_score user s = Normal r ->
  school r = s /\ calculateScore s user = Normal (score r).
Proof.
  unfold with_score. intros H.
  destruct (calculateScore s user) as [n|]; [|discriminate H].
  injection H as <-. split; reflexivity.
Qed.

(** What a list in the answer is made of. *)
Lemma recommend_Json_inv {rt : Runtime} (schools : list value)
      (user : value) (out : list scored) :
  recommend schools user = Json out ->
  exists mapped,
    Forall2 (fun s r => with_score user s = Normal r) schools mapped
    /\ out = sort (fun a b => score b - score a)
                  (filter (fun s => (score s >=? 30)%Z) mapped).
Proof.
  unfold recommend, recommendations. intros H.
  destruct (mapM (with_score user) schools) as [mapped|] eqn:E;
    [|discriminate H].
  exists mapped. split.
  - apply mapM_Forall2. exact E.
  - simpl in H. injection H as <-. reflexivity.
Qed.

(** X13.  When the handler answers with a list, every entry of it is a
    school of the store with the score [calculateScore] gives it, that
    score is between 30 and 120, every school of the store that scores
    30 or more is in the list, and the list is no longer than the
    store. *)
Theorem recommend_answer_sound :
  forall (rt : Runtime) (schools : list value) (user : value)
         (out : list scored),
    recommend schools user = Json out ->
    (forall r, In r out ->
               In (school r) schools
               /\ calculateScore (school r) user = Normal (score r)
               /\ 30 <= score r <= 120)
    /\ (forall s n, In s schools -> calculateScore s user = Normal n ->
                    30 <= n -> In {| school := s; score := n |} out)
    /\ (List.length out <= List.length schools)%nat.
Proof.
  intros rt schools user out H.
  destruct (recommend_Json_inv schools user out H) as [mapped [F ->]].
  split; [|split].
  - intros r Hr.
    apply (Permutation_in _ (sort_Permutation scored score _)) in Hr.
    apply filter_In in Hr. destruct Hr as [Hr Hge].
    destruct (Forall2_In_right _ _ _ _ F Hr) as [s [Hs Hw]].
    apply with_score_inv in Hw. destruct Hw as [Hschool Hscore].
    rewrite Hschool. split; [exact Hs|]. split; [exact Hscore|].
    apply Z.geb_le in Hge. split; [exact Hge|].
    apply conditions_of_score in Hscore.
    destruct Hscore as [sat [_ ->]]. apply earned_range.
  - intros s n Hs Hn Hge.
    destruct (Forall2_In_left _ _ _ _ F Hs) as [r [Hr Hw]].
    apply with_score_inv in Hw. destruct Hw as [Hschool Hscore].
    rewrite Hn in Hscore. injection Hscore as Hscore.
    apply (Permutation_in _
             (Permutation_sym (sort_Permutation scored score _))).
    apply filter_In. split.
    + destruct r as [rs rn]. simpl in Hschool, Hscore. subst. exact Hr.
    + simpl. apply Z.geb_le. exact Hge.
  - rewrite (Permutation_length (sort_Permutation scored score _)).
    rewrite (Forall2_length F). apply filter_length_bound.
Qed.

Lemma recommend_answer_sound_witness :
  (List.length
     [ {| school := Ranking.school90; score := 90 |};
       {| school := Ranking.school30; score := 30 |} ]
   <= List.length [Ranking.school10; Ranking.school30; Ranking.school90])%nat.
Proof.
  apply (proj2 (proj2 (recommend_answer_sound reference
           [Ranking.school10; Ranking.school30; Ranking.school90] user1
           [ {| school := Ranking.school90; score := 90 |};
             {| school := Ranking.school30; score := 30 |} ]
           eq_refl))).
Defined.

(** Sorting does not move, relative to each other, the elements that
    have the same key. *)
Lemma insert_keeps_ties {A : Type} (key : A -> Z) (v : Z) (x : A)
      (l : list A) :
  StronglySorted (fun a b => key b <= key a) l ->
  filter (fun r => (key r =? v)%Z) (insert (fun a b => key b - key a) x l)
  = filter (fun r => (key r =? v)%Z) (x :: l).
Proof.
  induction l as [|y t IH]; intros Hs.
  - reflexivity.
  - cbn [insert]. destruct (key y - key x <=? 0)%Z eqn:C.
    + reflexivity.
    + apply Z.leb_gt in C.
      inversion Hs as [|? ? Ht Hy]; subst.
      cbn [filter]. rewrite (IH Ht). cbn [filter].
      destruct (key x =? v)%Z eqn:Ex; [|reflexivity].
      destruct (key y =? v)%Z eqn:Ey; [|reflexivity].
      apply Z.eqb_eq in Ex, Ey. lia.
Qed.

Lemma sort_keeps_ties {A : Type} (key : A -> Z) (v : Z) (l : list A) :
  filter (fun r => (key r =? v)%Z) (sort (fun a b => key b - key a) l)
  = filter (fun r => (key r =? v)%Z) l.
Proof.
  induction l as [|x t IH].
  - reflexivity.
  - cbn [sort fold_right].
    change (fold_right (insert (fun a b => key b - key a)) [] t)
      with (sort (fun a b => key b - key a) t).
    rewrite insert_keeps_ties by apply sort_sorted.
    cbn [filter]. rewrite IH. reflexivity.
Qed.

(** X14.  Schools that score the same come out in the order of the
    store: the sort is stable (as ECMAScript 2019 requires of
    [Array.prototype.sort]), so among the schools with a given score of
    30 or more the answer keeps the order in which the store lists
    them. *)
Theorem recommend_keeps_store_order_on_ties :
  forall (rt : Runtime) (schools : list value) (user : value)
         (score_of : value -> Z) (out : list scored) (v : Z),
    (forall s, In s schools ->
               calculateScore s user = Normal (score_of s)) ->
    recommend schools user = Json out ->
    30 <= v ->
    map school (filter (fun r => (score r =? v)%Z) out)
    = filter (fun s => (score_of s =? v)%Z) schools.
Proof.
  intros rt schools user score_of out v Hall H Hv.
  unfold recommend, recommendations in H.
  rewrite (mapM_Normal_map (with_score user)
             (fun s => {| school := s; score := score_of s |})) in H
    by (intros s Hs; apply with_score_Normal, Hall; exact Hs).
  simpl in H. injection H as <-.
  rewrite (sort_keeps_ties score v).
  clear Hall. induction schools as [|s t IH]; [reflexivity|].
  cbn [map filter score].
  destruct (score_of s >=? 30)%Z eqn:G; cbn [filter score].
  - destruct (score_of s =? v)%Z; cbn [map school]; rewrite IH; reflexivity.
  - destruct (score_of s =? v)%Z eqn:E; [|exact IH].
    apply Z.eqb_eq in E. rewrite Z.geb_leb in G. apply Z.leb_gt in G. lia.
Qed.

Lemma recommend_keeps_store_order_on_ties_witness :
  map school
      (filter (fun r => (score r =? 30)%Z)
         [ {| school := Ranking.school30; score := 30 |};
           {| school := Object [("classes", Str "10")]; score := 30 |} ])
  = filter (fun s => (match @calculateScore reference s user1 with
                      | Normal n => n
                      | TypeError => 0
                      end =? 30)%Z)
           [Ranking.school30; Ranking.school10;
            Object [("classes", Str "10")]].
Proof.
  apply (recommend_keeps_store_order_on_ties reference
           [Ranking.school30; Ranking.school10;
            Object [("classes", Str "10")]] user1
           (fun s => match @calculateScore reference s user1 with
                     | Normal n => n
                     | TypeError => 0
                     end)).
  - intros s [<-|[<-|[<-|[]]]]; reflexivity.
  - reflexivity.
  - lia.
Defined.

(** ** Text matching *)

Lemma append_nil_r (s : string) : s ++ "" = s.
Proof. induction s as [|c t IH]; simpl; [|rewrite IH]; reflexivity. Qed.

Lemma append_assoc (a b c : string) : (a ++ b) ++ c = a ++ (b ++ c).
Proof. induction a as [|x t IH]; simpl; [|rewrite IH]; reflexivity. Qed.

Lemma lower_empty (s : string) : (lower s =? "") = (s =? "").
Proof. destruct s; reflexivity. Qed.

Lemma lower_unit_idempotent (c : ascii) :
  lower_unit (lower_unit c) = lower_unit c.
Proof.
  destruct c as [[|] [|] [|] [|] [|] [|] [|] [|]]; reflexivity.
Qed.

Lemma lower_idempotent (s : string) : lower (lower s) = lower s.
Proof.
  induction s as [|c t IH]; simpl;
    [|rewrite IH, lower_unit_idempotent]; reflexivity.
Qed.

Lemma prefix_spec (sub s : string) :
  String.prefix sub s = true <-> exists post, s = sub ++ post.
Proof.
  revert s. induction sub as [|c t IH]; intros s.
  - split; [intros _; exists s; reflexivity | intros _; apply prefix_empty].
  - destruct s as [|d u]; simpl.
    + split; [discriminate | intros [post H]; discriminate H].
    + destruct (ascii_dec c d) as [->|Hcd].
      * rewrite IH. split.
        -- intros [post ->]. exists post. reflexivity.
        -- intros [post H]. injection H as ->. exists post. reflexivity.
      * split; [discriminate|].
        intros [post H]. injection H as H _. congruence.
Qed.

(** [includes] finds exactly the contiguous occurrences. *)
Lemma includes_spec (s sub : string) :
  includes s sub = true <-> exists pre post, s = pre ++ sub ++ post.
Proof.
  induction s as [|c t IH].
  - cbn [includes]. rewrite orb_false_r, prefix_spec. split.
    + intros [post H]. exists "", post. exact H.
    + intros [pre [post H]]. destruct pre; [|discriminate H].
      exists post. exact H.
  - cbn [includes]. rewrite orb_true_iff, prefix_spec, IH. split.
    + intros [[post H] | [pre [post H]]].
      * exists "", post. exact H.
      * exists (String c pre), post. simpl. rewrite H. reflexivity.
    + intros [pre [post H]]. destruct pre as [|d pre'].
      * left. exists post. exact H.
      * right. simpl in H. injection H as _ H. exists pre', post. exact H.
Qed.

Lemma location_match_strings (sp up : list (string * value))
      (a b : string) :
  field "location" sp = Str a -> field "location" up = Str b ->
  a <> "" -> b <> "" ->
  location_match (Object sp) (Object up)
  = Normal (includes (lower a) (lower b)).
Proof.
  intros Ha Hb Na Nb.
  rewrite location_match_truthy.
  - rewrite Ha, Hb. reflexivity.
  - rewrite Ha. simpl. apply String.eqb_neq in Na. rewrite Na. reflexivity.
  - rewrite Hb. simpl. apply String.eqb_neq in Nb. rewrite Nb. reflexivity.
Qed.

(** X15.  On two non-empty strings the location criterion is a
    substring search on the lowercased forms: it holds exactly when the
    school's lowercased location is some text, then the user's
    lowercased location, then some text.  So a request whose lowercased
    location occurs inside the lowercased location of another request
    matches every school that the other request matches. *)
Theorem location_is_substring_match :
  forall (sp up : list (string * value)) (a b : string),
    field "location" sp = Str a -> field "location" up = Str b ->
    a <> "" -> b <> "" ->
    (location_match (Object sp) (Object up) = Normal true
     <-> exists pre post, lower a = pre ++ lower b ++ post)
    /\ (forall (up' : list (string * value)) (b' p q : string),
           field "location" up' = Str b' -> b' <> "" ->
           lower b = p ++ lower b' ++ q ->
           location_match (Object sp) (Object up) = Normal true ->
           location_match (Object sp) (Object up') = Normal true).
Proof.
  intros sp up a b Ha Hb Na Nb.
  assert (Iff : forall up0 b0,
             field "location" up0 = Str b0 -> b0 <> "" ->
             (location_match (Object sp) (Object up0) = Normal true
              <-> exists pre post, lower a = pre ++ lower b0 ++ post)).
  { intros up0 b0 Hb0 Nb0.
    rewrite (location_match_strings sp up0 a b0 Ha Hb0 Na Nb0).
    rewrite <- includes_spec. split.
    - intros H. injection H as H. exact H.
    - intros ->. reflexivity. }
  split; [apply Iff; assumption|].
  intros up' b' p q Hb' Nb' Hsplit Hmatch.
  apply (Iff up' b' Hb' Nb').
  apply (Iff up b Hb Nb) in Hmatch. destruct Hmatch as [pre [post E]].
  exists (pre ++ p), (q ++ post).
  rewrite E, Hsplit, !append_assoc. reflexivity.
Qed.

Lemma location_is_substring_match_witness :
  location_match (Object [("location", Str "New Delhi")])
                 (Object [("location", Str "Del")]) = Normal true.
Proof.
  apply (proj2 (location_is_substring_match
           [("location", Str "New Delhi")] [("location", Str "DELHI")]
           "New Delhi" "DELHI" eq_refl eq_refl
           ltac:(discriminate) ltac:(discriminate))
           [("location", Str "Del")] "Del" "" "hi" eq_refl
           ltac:(discriminate) eq_refl).
  reflexivity.
Defined.

(** X16.  The location and type criteria do not see the case of
    letters: replacing the location, or the type, on either side by a
    string with the same lowercase form (its lowercase form itself, for
    one) changes neither result; and the type criterion is symmetric in
    the two strings. *)
Theorem text_criteria_ignore_case :
  forall (sp up sp' up' : list (string * value)) (a b a' b' : string),
    lower a' = lower a -> lower b' = lower b ->
    (field "location" sp = Str a -> field "location" up = Str b ->
     field "location" sp' = Str a' -> field "location" up' = Str b' ->
     location_match (Object sp') (Object up')
     = location_match (Object sp) (Object up))
    /\ (field "type" sp = Str a -> field "type" up = Str b ->
        field "type" sp' = Str a' -> field "type" up' = Str b' ->
        type_match (Object sp') (Object up')
        = type_match (Object sp) (Object up))
    /\ (field "type" sp = Str a -> field "type" up = Str b ->
        field "type" sp' = Str b -> field "type" up' = Str a ->
        type_match (Object sp') (Object up')
        = type_match (Object sp) (Object up)).
Proof.
  intros sp up sp' up' a b a' b' La Lb.
  assert (Ea : (a' =? "") = (a =? ""))
    by (rewrite <- (lower_empty a'), <- (lower_empty a), La; reflexivity).
  assert (Eb : (b' =? "") = (b =? ""))
    by (rewrite <- (lower_empty b'), <- (lower_empty b), Lb; reflexivity).
  split; [|split].
  - intros Ha Hb Ha' Hb'. unfold location_match.
    rewrite !Get_Object, Ha, Hb, Ha', Hb'. simpl.
    rewrite Ea, Eb, La, Lb. reflexivity.
  - intros Ha Hb Ha' Hb'. unfold type_match.
    rewrite !Get_Object, Ha, Hb, Ha', Hb'. simpl.
    rewrite Ea, Eb, La, Lb. reflexivity.
  - intros Ha Hb Ha' Hb'. unfold type_match.
    rewrite !Get_Object, Ha, Hb, Ha', Hb'. simpl.
    rewrite (String.eqb_sym (lower b) (lower a)).
    destruct (a =? ""), (b =? ""); reflexivity.
Qed.

Lemma text_criteria_ignore_case_witness :
  type_match (Object [("type", Str "public")]) (Object [("type", Str "PUBLIC")])
  = type_match (Object [("type", Str "Public")])
               (Object [("type", Str "pUbLiC")]).
Proof.
  apply (proj1 (proj2 (text_criteria_ignore_case
           [("type", Str "Public")] [("type", Str "pUbLiC")]
           [("type", Str "public")] [("type", Str "PUBLIC")]
           "Public" "pUbLiC" "public" "PUBLIC" eq_refl eq_refl)));
    reflexivity.
Defined.

(** ** Distance *)

Lemma number_leb_trans (a b c : number) :
  number_leb a b = true -> number_leb b c = true -> number_leb a c = true.
Proof.
  destruct a as [|[|]|p], b as [|[|]|q], c as [|[|]|r]; simpl;
    try discriminate; try reflexivity.
  rewrite !Qle_bool_iff. apply Qle_trans.
Qed.

(** X17.  On numbers the distance criterion is monotone: a school that
    fits the user's bound still fits when the bound is raised, and every
    school that is no farther fits as well. *)
Theorem distance_fit_monotone :
  forall (rt : Runtime) (sp up sp' up' : list (string * value))
         (d m d' m' : number),
    field "distence" sp = Number d -> field "maxDistance" up = Number m ->
    field "distence" sp' = Number d' ->
    field "maxDistance" up' = Number m' ->
    number_leb d' d = true -> number_leb m m' = true ->
    distance_fit (Object sp) (Object up) = Normal true ->
    distance_fit (Object sp') (Object up') = Normal true.
Proof.
  intros rt sp up sp' up' d m d' m' Hd Hm Hd' Hm' Ld Lm.
  rewrite (distance_fit_number sp up d Hd), Hm.
  rewrite (distance_fit_number sp' up' d' Hd'), Hm'.
  rewrite !LessEq_numbers. intros H. injection H as H. f_equal.
  apply number_leb_trans with d; [exact Ld|].
  apply number_leb_trans with m; assumption.
Qed.

Lemma distance_fit_monotone_witness :
  @distance_fit reference
     (Object [("distence", Number (Finite (5 # 2)))])
     (Object [("maxDistance", Number (num 10))])
  = Normal true.
Proof.
  apply (distance_fit_monotone reference
           [("distence", Number (num 3))] [("maxDistance", Number (num 4))]
           [("distence", Number (Finite (5 # 2)))]
           [("maxDistance", Number (num 10))]
           (num 3) (num 4) (Finite (5 # 2)) (num 10));
    reflexivity.
Defined.

(** ** Names of uploaded files *)

Lemma uint_no_hyphen (d : Decimal.uint) :
  has_unit "-" (NilEmpty.string_of_uint d) = false.
Proof. induction d; simpl; try exact IHd; reflexivity. Qed.

Lemma decimal_no_hyphen (z : Z) :
  0 <= z -> has_unit "-" (decimal z) = false.
Proof.
  intros Hz. unfold decimal. destruct z as [|p|p]; [reflexivity| |lia].
  simpl. unfold NilZero.string_of_uint.
  destruct (Pos.to_uint p); try reflexivity; apply uint_no_hyphen.
Qed.

Lemma decimal_injective (a b : Z) : decimal a = decimal b -> a = b.
Proof.
  unfold decimal. intros H.
  assert (Nonnil : forall z, Z.to_int z <> Decimal.Pos Decimal.Nil
                             /\ Z.to_int z <> Decimal.Neg Decimal.Nil).
  { intros [|p|p]; simpl; split; try discriminate;
      intros K; injection K as K;
      exact (DecimalPos.Unsigned.to_uint_nonnil p K). }
  assert (E : Some (Z.to_int a) = Some (Z.to_int b)).
  { rewrite <- (NilZero.isi (Z.to_int a)) by apply Nonnil.
    rewrite <- (NilZero.isi (Z.to_int b)) by apply Nonnil.
    rewrite H. reflexivity. }
  injection E as E.
  rewrite <- (DecimalZ.of_to a), <- (DecimalZ.of_to b), E. reflexivity.
Qed.

(** Two texts without hyphen, each followed by a hyphen and a rest, are
    equal only part by part. *)
Lemma split_at_hyphen (u v a b : string) :
  has_unit "-" u = false -> has_unit "-" v = false ->
  u ++ "-" ++ a = v ++ "-" ++ b -> u = v /\ a = b.
Proof.
  revert v. induction u as [|c t IH]; intros v Hu Hv H.
  - destruct v as [|d w]; simpl in H.
    + injection H as H. split; [reflexivity | exact H].
    + injection H as Hd _. subst d. simpl in Hv. discriminate Hv.
  - destruct v as [|d w]; simpl in H.
    + injection H as Hc _. subst c. simpl in Hu. discriminate Hu.
    + injection H as Hc H. subst d.
      simpl in Hu, Hv. apply orb_false_iff in Hu, Hv.
      destruct (IH w (proj2 Hu) (proj2 Hv) H) as [-> ->].
      split; reflexivity.
Qed.

(** X18.  The name under which an upload is stored determines both the
    millisecond of the upload and the original name, the digits before
    the first hyphen being the time: two uploads get the same stored
    name exactly when they have the same original name and arrive in
    the same millisecond, in which case the second replaces the
    first. *)
Theorem filename_collides_iff :
  forall (t1 t2 : Z) (n1 n2 : string),
    0 <= t1 -> 0 <= t2 ->
    (filename t1 n1 = filename t2 n2 <-> t1 = t2 /\ n1 = n2).
Proof.
  intros t1 t2 n1 n2 H1 H2. unfold filename. split.
  - intros H.
    destruct (split_at_hyphen _ _ _ _ (decimal_no_hyphen t1 H1)
                (decimal_no_hyphen t2 H2) H) as [Ht Hn].
    split; [apply decimal_injective; exact Ht | exact Hn].
  - intros [-> ->]. reflexivity.
Qed.

Lemma filename_collides_iff_witness :
  filename 1700000000000 "form-1.pdf" = filename 1700000000000 "form-1.pdf"
  <-> 1700000000000 = 1700000000000 /\ "form-1.pdf" = "form-1.pdf".
Proof.
  apply (filename_collides_iff 1700000000000 1700000000000
           "form-1.pdf" "form-1.pdf"); lia.
Defined.

(** ** The chatbot's context *)

Lemma mapM_TypeError {A B : Type} (f : A -> completion B) (l : list A)
      (x : A) :
  In x l -> f x = TypeError -> mapM f l = TypeError.
Proof.
  intros Hin Hx. induction l as [|y t IH]; [contradiction Hin|]. simpl.
  destruct (f y) as [b|] eqn:Hy; [|reflexivity]. simpl.
  destruct Hin as [->|Hin].
  - rewrite Hx in Hy. discriminate Hy.
  - rewrite (IH Hin). reflexivity.
Qed.

Lemma mapM_snoc {A B : Type} (f : A -> completion B) (l : list A) (x : A)
      (ys : list B) (y : B) :
  mapM f l = Normal ys -> f x = Normal y ->
  mapM f (l ++ [x])%list = Normal (ys ++ [y])%list.
Proof.
  revert ys. induction l as [|a t IH]; simpl; intros ys Hl Hx.
  - injection Hl as <-. rewrite Hx. reflexivity.
  - destruct (f a) as [b|]; [|discriminate Hl]. simpl in Hl |- *.
    destruct (mapM f t) as [bs|]; [|discriminate Hl]. simpl in Hl.
    injection Hl as <-. rewrite (IH bs eq_refl Hx). reflexivity.
Qed.

Lemma concat_snoc (sep x : string) (l : list string) :
  l <> [] ->
  String.concat sep (l ++ [x])%list = String.concat sep l ++ sep ++ x.
Proof.
  induction l as [|a t IH]; intros Hl; [contradiction Hl; reflexivity|].
  destruct t as [|b t'].
  - reflexivity.
  - change (String.concat sep ((a :: b :: t') ++ [x])%list)
      with (a ++ sep ++ String.concat sep ((b :: t') ++ [x])%list).
    rewrite IH by discriminate.
    change (String.concat sep (a :: b :: t'))
      with (a ++ sep ++ String.concat sep (b :: t')).
    rewrite !append_assoc. reflexivity.
Qed.

Lemma mapM_nonempty {A B : Type} (f : A -> completion B) (l : list A)
      (ys : list B) :
  mapM f l = Normal ys -> l <> [] -> ys <> [].
Proof.
  destruct l as [|a t]; intros H Hl; [contradiction Hl; reflexivity|].
  simpl in H. destruct (f a) as [b|]; [|discriminate H]. simpl in H.
  destruct (mapM f t) as [bs|]; [|discriminate H]. simpl in H.
  injection H as <-. discriminate.
Qed.

Section ChatbotFacts.

Context {rt : Runtime}.
Variable rupee : string.

Lemma interpolate_object_free (sp : list (string * value)) (k : string) :
  object_free (field k sp) = true ->
  exists s, interpolate (Object sp) k = Normal s.
Proof.
  intros H. unfold interpolate. rewrite Get_Object. cbn [bind].
  apply ToString_object_free. exact H.
Qed.

Lemma interpolate_missing (sp : list (string * value)) (k : string) :
  field k sp = Undefined ->
  interpolate (Object sp) k = Normal "undefined".
Proof.
  intros H. unfold interpolate. rewrite Get_Object, H. reflexivity.
Qed.

End ChatbotFacts.

(** X19.  The context handed to the chatbot has one line per school, in
    the order of the store: it is empty for an empty store, and a
    school added at the end of a non-empty store adds a line break and
    its own line, leaving the text before it unchanged.  A line is
    produced for every school record whose five printed fields hold no
    object, a field the record lacks being printed as the text
    ["undefined"]; an entry of the store that is [null] makes the whole
    context throw.  Leaving the language out is the same as asking for
    ["English"]. *)
Theorem school_context_properties :
  forall (rt : Runtime) (rupee : string),
    school_context rupee [] = Normal ""
    /\ (forall (schools : list value) (s : value) (text line : string),
           schools <> [] ->
           school_context rupee schools = Normal text ->
           school_line rupee s = Normal line ->
           school_context rupee (schools ++ [s])%list
           = Normal (text ++ newline ++ line))
    /\ (forall sp : list (string * value),
           (forall k, In k line_fields ->
                      object_free (field k sp) = true) ->
           exists line, school_line rupee (Object sp) = Normal line)
    /\ (forall sp : list (string * value),
           (forall k, In k line_fields -> field k sp = Undefined) ->
           school_line rupee (Object sp)
           = Normal ("- undefined, undefined, undefined, Fee: " ++ rupee
                     ++ "undefined, Distance: undefinedkm"))
    /\ (forall schools : list value,
           In Null schools -> school_context rupee schools = TypeError)
    /\ (forall snapshot query : value,
           user_message rupee snapshot query Undefined
           = user_message rupee snapshot query (Str "English")).
Proof.
  intros rt rupee.
  split; [reflexivity|]. split; [|split; [|split; [|split]]].
  - intros schools s text line Hne Hctx Hline.
    unfold school_context in Hctx |- *.
    destruct (mapM (school_line rupee) schools) as [lines|] eqn:Hlines;
      [|discriminate Hctx].
    simpl in Hctx. injection Hctx as <-.
    rewrite (mapM_snoc _ _ _ _ _ Hlines Hline). simpl. f_equal.
    apply concat_snoc. exact (mapM_nonempty _ _ _ Hlines Hne).
  - intros sp H. unfold school_line.
    destruct (interpolate_object_free sp "name") as [a Ha];
      [apply H; in_list|].
    destruct (interpolate_object_free sp "location") as [b Hb];
      [apply H; in_list|].
    destruct (interpolate_object_free sp "type") as [c Hc];
      [apply H; in_list|].
    destruct (interpolate_object_free sp "fee") as [d Hd];
      [apply H; in_list|].
    destruct (interpolate_object_free sp "distence") as [e He];
      [apply H; in_list|].
    rewrite Ha, Hb, Hc, Hd, He. eexists; reflexivity.
  - intros sp H. unfold school_line.
    rewrite !interpolate_missing by (apply H; in_list). reflexivity.
  - intros schools Hin. unfold school_context.
    rewrite (mapM_TypeError (school_line rupee) schools Null Hin eq_refl).
    reflexivity.
  - intros snapshot query. reflexivity.
Qed.

Lemma school_context_properties_witness :
  @school_context reference "Rs" [Object [("name", Str "A")]; Object []]
  = Normal (("- A, undefined, undefined, Fee: Rsundefined, "
             ++ "Distance: undefinedkm")
            ++ newline
            ++ ("- undefined, undefined, undefined, Fee: Rsundefined, "
                ++ "Distance: undefinedkm")).
Proof.
  apply (proj1 (proj2 (school_context_properties reference "Rs"))
           [Object [("name", Str "A")]] (Object [])).
  - discriminate.
  - reflexivity.
  - reflexivity.
Defined.

(** ** The shape of the store and of the class list *)

Lemma filter_keeps_all {A : Type} (p : A -> bool) (l : list A) :
  (forall x, In x l -> p x = true) -> filter p l = l.
Proof.
  induction l as [|x t IH]; intros H; simpl; [reflexivity|].
  rewrite (H x (or_introl eq_refl)), IH; [reflexivity|].
  intros y Hy. apply H. right. exact Hy.
Qed.

(** Properties that all have different names are listed as they are. *)
Lemma entries_NoDup (props : list (string * value)) :
  NoDup (map fst props) -> entries props = props.
Proof.
  induction props as [|[k v] t IH]; intros Hnd; [reflexivity|].
  inversion Hnd as [|? ? Hnotin Ht]; subst. cbn [entries].
  rewrite (IH Ht). f_equal. apply filter_keeps_all.
  intros [k' v'] Hin. simpl. apply negb_true_iff, String.eqb_neq.
  intros ->. apply Hnotin. apply (in_map fst) in Hin. exact Hin.
Qed.

Lemma indexed_values (i : nat) (l : list value) :
  map snd (indexed i l) = l.
Proof.
  revert i. induction l as [|x t IH]; intros i; simpl;
    [|rewrite IH]; reflexivity.
Qed.

(** X20.  The handler sees the store only through the list of its
    values: for a store kept as an object (under keys that are all
    different, listed in enumeration order) the answer is the one for
    the values in that order, whatever the keys are, and a store kept as
    an array gives the answer for its elements.  An object store and an
    array store that list the same schools in the same order are
    answered alike. *)
Theorem store_keys_play_no_part :
  forall (rt : Runtime) (user : value),
    (forall props : list (string * value),
        NoDup (map fst props) ->
        post_recommend (Object props) user
        = recommend (map snd props) user)
    /\ (forall elems : list value,
           post_recommend (Array elems) user = recommend elems user).
Proof.
  intros rt user. split.
  - intros props Hnd. unfold post_recommend, getSchoolsFromDB, or_else.
    cbn [ToBoolean Object_values own_enumerable bind].
    rewrite (entries_NoDup props Hnd). reflexivity.
  - intros elems. unfold post_recommend, getSchoolsFromDB, or_else.
    cbn [ToBoolean Object_values own_enumerable bind].
    rewrite indexed_values. reflexivity.
Qed.

Lemma store_keys_play_no_part_witness :
  @post_recommend reference
     (Object [("-N1", Ranking.school30); ("-N2", Ranking.school90)]) user1
  = @recommend reference [Ranking.school30; Ranking.school90] user1.
Proof.
  apply (proj1 (store_keys_play_no_part reference user1)
           [("-N1", Ranking.school30); ("-N2", Ranking.school90)]).
  repeat constructor; simpl; intuition discriminate.
Defined.

Lemma mapM_Permutation {A B : Type} (f : A -> completion B)
      (l l' : list A) :
  Permutation l l' ->
  match mapM f l, mapM f l' with
  | Normal ys, Normal ys' => Permutation ys ys'
  | TypeError, TypeError => True
  | _, _ => False
  end.
Proof.
  induction 1 as [|x l l' _ IH|x y l|l l' l'' _ IH1 _ IH2]; simpl.
  - apply perm_nil.
  - destruct (f x) as [b|]; simpl; [|exact I].
    destruct (mapM f l), (mapM f l'); simpl; try exact IH.
    apply perm_skip. exact IH.
  - destruct (f x) as [b|], (f y) as [c|], (mapM f l) as [ys|]; simpl;
      try exact I.
    apply perm_swap.
  - destruct (mapM f l), (mapM f l'), (mapM f l'');
      try contradiction; try exact I.
    eapply perm_trans; eassumption.
Qed.

Lemma existsb_Permutation {A : Type} (p : A -> bool) (l l' : list A) :
  Permutation l l' -> existsb p l = existsb p l'.
Proof.
  induction 1 as [|x l l' _ IH|x y l|l l' l'' _ IH1 _ IH2]; simpl.
  - reflexivity.
  - rewrite IH. reflexivity.
  - destruct (p x), (p y); reflexivity.
  - rewrite IH1. exact IH2.
Qed.

(** X21.  When [classes] is a list, the class criterion looks for the
    user's class among the labels and nothing else: listing the same
    labels in another order gives the same result, also when one of
    them cannot be converted. *)
Theorem class_list_order_is_irrelevant :
  forall (rt : Runtime) (sp sp' : list (string * value)) (user : value)
         (elems elems' : list value),
    field "classes" sp = Array elems ->
    field "classes" sp' = Array elems' ->
    Permutation elems elems' ->
    class_match (Object sp') user = class_match (Object sp) user.
Proof.
  intros rt sp sp' user elems elems' Hc Hc' P.
  unfold class_match. rewrite !Get_Object, Hc, Hc'.
  cbn [bind StrictEquals negb andb isArray].
  pose proof (mapM_Permutation ToString elems elems' P) as M.
  destruct (mapM ToString elems) as [strs|],
    (mapM ToString elems') as [strs'|]; try contradiction;
    cbn [bind]; [|reflexivity].
  destruct (Get user "class") as [c|]; cbn [bind]; [|reflexivity].
  destruct (ToString c) as [key|]; cbn [bind]; [|reflexivity].
  rewrite (existsb_Permutation _ strs strs' M). reflexivity.
Qed.

Lemma class_list_order_is_irrelevant_witness :
  @class_match reference
     (Object [("classes", Array [Number (num 10); Str "9"])]) user1
  = @class_match reference
      (Object [("classes", Array [Str "9"; Number (num 10)])]) user1.
Proof.
  apply (class_list_order_is_irrelevant reference
           [("classes", Array [Str "9"; Number (num 10)])]
           [("classes", Array [Number (num 10); Str "9"])] user1
           [Str "9"; Number (num 10)] [Number (num 10); Str "9"]
           eq_refl eq_refl).
  apply perm_swap.
Defined.
